(** * appyt: upload receiver, encoder supervisor and log buffer

    A shallow embedding of [appyt.py], a single-file Streamlit application
    that stores an uploaded video on disk and pushes it to an RTMP endpoint
    through a child [ffmpeg] process.

    Python objects are modelled by value, except the log lists, which live
    in a store of list objects because the script keeps two references to
    them (the local [logs] and the entry of [st.session_state]).  Everything
    the operating system decides (the clock, whether a program can be
    spawned, how a child process answers a signal) is read from a [world]
    record, so that every statement below holds for all answers it can
    give. *)

From Stdlib Require Import ZArith Ascii DecimalString.
From Stdlib.Strings Require Import Byte.
From stdpp Require Import gmap strings list fin_maps.
From Equations Require Import Equations.

Set Default Proof Using "Type".

(** ** Python values used by the script *)

Definition nl : string := String "010"%char "".

(** [str(n)] for an integer. *)
Definition str_of_Z (n : Z) : string := NilZero.string_of_int (Z.to_int n).

(** Truth value of a [str]: the empty string is false. *)
Definition str_truthy (s : string) : bool :=
  match s with "" => false | _ => true end.

(** Truth value of a value that is [None] or a [str]. *)
Definition opt_str_truthy (o : option string) : bool :=
  match o with None => false | Some s => str_truthy s end.

(** [l[-n:]] for a positive [n]: the last [n] items, all of them when the
    list is shorter. *)
Definition slice_last {A} (n : nat) (l : list A) : list A :=
  drop (length l - n) l.

(** Exceptions, all instances of [Exception]; each carries its [str()].
    [OSError] stands for [OSError] and for those of its subclasses that the
    script does not tell apart ([FileExistsError], [IsADirectoryError],
    [NotADirectoryError]); [FileNotFoundError] is the one it catches by
    name.  [NoSessionContext] is Streamlit's, for a call made outside a
    script run. *)
Inductive exn :=
| FileNotFoundError (msg : string)
| TimeoutExpired (msg : string)
| OSError (msg : string)
| RuntimeError (msg : string)
| NoSessionContext (msg : string).

Definition exn_str (e : exn) : string :=
  match e with
  | FileNotFoundError m | TimeoutExpired m | OSError m | RuntimeError m
  | NoSessionContext m => m
  end.

Definition is_FileNotFoundError (e : exn) : bool :=
  match e with FileNotFoundError _ => true | _ => false end.

(** ** A state and exception monad *)

Inductive res (S A : Type) :=
| Ok (a : A) (s : S)
| Raise (e : exn) (s : S).
Arguments Ok {S A} a s.
Arguments Raise {S A} e s.

Definition M (S A : Type) : Type := S → res S A.

Definition ret {S A} (a : A) : M S A := λ s, Ok a s.

Definition bind {S A B} (m : M S A) (k : A → M S B) : M S B :=
  λ s, match m s with
       | Ok a s' => k a s'
       | Raise e s' => Raise e s'
       end.

Definition raise {S A} (e : exn) : M S A := λ s, Raise e s.

(** [try: m  except Exception as e: h e] *)
Definition try_except {S A} (m : M S A) (h : exn → M S A) : M S A :=
  λ s, match m s with
       | Ok a s' => Ok a s'
       | Raise e s' => h e s'
       end.

(** [try: m  except C as e: h e], for the exception class recognised by
    [cls]; other exceptions pass through. *)
Definition try_except_cls {S A} (cls : exn → bool) (m : M S A)
    (h : exn → M S A) : M S A :=
  try_except m (λ e, if cls e then h e else raise e).

Definition get {S} : M S S := λ s, Ok s s.
Definition modify {S} (f : S → S) : M S unit := λ s, Ok tt (f s).

Definition final {S A} (r : res S A) : S :=
  match r with Ok _ s | Raise _ s => s end.

Definition returned {S A} (r : res S A) : option A :=
  match r with Ok a _ => Some a | Raise _ _ => None end.

#[export] Instance M_ret {S} : MRet (M S) := λ A, @ret S A.
#[export] Instance M_bind {S} : MBind (M S) := λ A B k m, @bind S A B m k.

Abbreviation pass := (mret tt).

(** ** The encoder command line ([start_ffmpeg], lines 105 to 119) *)

Definition output_url (stream_key : string) : string :=
  "rtmp://a.rtmp.youtube.com/live2/" +:+ stream_key.

Definition scale_arg (is_shorts : bool) : list string :=
  if is_shorts then ["-vf"; "scale=720:1280"] else [].

Definition ffmpeg_cmd (video_path stream_key : string) (is_shorts : bool)
    : list string :=
  [ "ffmpeg";
    "-re";
    "-stream_loop"; "-1";
    "-i"; video_path;
    "-c:v"; "libx264"; "-preset"; "veryfast"; "-b:v"; "2500k";
    "-maxrate"; "2500k"; "-bufsize"; "5000k";
    "-g"; "60"; "-keyint_min"; "60";
    "-c:a"; "aac"; "-b:a"; "128k" ]
  ++ scale_arg is_shorts
  ++ [ "-f"; "flv"; output_url stream_key ].

(** ** The file system

    Paths are a directory of the working directory and a name in it, which
    is all the script uses ([.streamlit/config.toml], [uploads/<name>]).
    A node is a directory or a regular file; [read_only] says that the file
    system refuses every change. *)

Inductive node :=
| Dir
| File (content : list byte).

Record filesystem := {
  nodes : gmap string node;
  read_only : bool
}.

Record path := { p_dir : string; p_name : string }.

(** [str(p)] *)
Definition path_str (p : path) : string := p_dir p +:+ "/" +:+ p_name p.

Definition set_node (k : string) (n : node) (f : filesystem) : filesystem :=
  {| nodes := <[k := n]> (nodes f); read_only := read_only f |}.

Definition is_dir (d : string) (f : filesystem) : bool :=
  match nodes f !! d with Some Dir => true | _ => false end.

(** [p.exists()] *)
Definition path_exists (p : path) (f : filesystem) : bool :=
  is_dir (p_dir p) f &&
  match nodes f !! path_str p with Some _ => true | None => false end.

Definition file_content (p : path) (f : filesystem) : option (list byte) :=
  match nodes f !! path_str p with
  | Some (File c) => Some c
  | _ => None
  end.

(** The path at the end of the [str()] of an [OSError], which is its
    [repr]: between single quotes, for a path without quote, backslash or
    control character. *)
Definition quoted (s : string) : string := "'" +:+ s +:+ "'".

(** [Path(d).mkdir(exist_ok=True)] *)
Definition mkdir_exist_ok (d : string) : M filesystem unit :=
  f ← get;
  match nodes f !! d with
  | Some Dir => pass
  | Some (File _) => raise (OSError ("[Errno 17] File exists: " +:+ quoted d))
  | None =>
      if read_only f
      then raise (OSError ("[Errno 30] Read-only file system: " +:+ quoted d))
      else modify (set_node d Dir)
  end.

(** [open(p, "w")] and [open(p, "wb")]: the file is created, or emptied
    when it is there already.  The directory is looked up first: when it is
    absent the error is [FileNotFoundError], when a regular file is in its
    place it is [NotADirectoryError]. *)
Definition open_w (p : path) : M filesystem unit :=
  f ← get;
  match nodes f !! p_dir p with
  | None =>
      raise (FileNotFoundError
               ("[Errno 2] No such file or directory: " +:+ quoted (path_str p)))
  | Some (File _) =>
      raise (OSError ("[Errno 20] Not a directory: " +:+ quoted (path_str p)))
  | Some Dir =>
      match nodes f !! path_str p with
      | Some Dir =>
          raise (OSError ("[Errno 21] Is a directory: " +:+ quoted (path_str p)))
      | _ =>
          if read_only f
          then raise (OSError ("[Errno 30] Read-only file system: "
                               +:+ quoted (path_str p)))
          else modify (set_node (path_str p) (File []))
      end
  end.

(** [f.write(chunk)] on a file opened by [open_w]: the bytes go to its end. *)
Definition f_write (p : path) (chunk : list byte) : M filesystem unit :=
  modify (λ f, match nodes f !! path_str p with
               | Some (File c) => set_node (path_str p) (File (c ++ chunk)) f
               | _ => f
               end).

(** [p.write_text(s)] *)
Definition write_text (p : path) (s : string) : M filesystem unit :=
  open_w p;; f_write p (String.list_byte_of_string s).

(** Running a computation on one side of a pair of states. *)
Definition on_fst {S T A} (m : M S A) : M (S * T) A :=
  λ st, match m st.1 with
        | Ok a s' => Ok a (s', st.2)
        | Raise e s' => Raise e (s', st.2)
        end.

Definition on_snd {S T A} (m : M T A) : M (S * T) A :=
  λ st, match m st.2 with
        | Ok a t' => Ok a (st.1, t')
        | Raise e t' => Raise e (st.1, t')
        end.

(** ** Start-up: the Streamlit settings file (lines 21 to 34)

    The state is the file system and the lines printed so far. *)

Definition CONFIG_DIR : string := ".streamlit".
Definition CONFIG_PATH : path := {| p_dir := CONFIG_DIR; p_name := "config.toml" |}.

Definition config_text : string :=
  "[server]" +:+ nl +:+
  "maxUploadSize = 4096" +:+ nl +:+
  "enableXsrfProtection = false" +:+ nl.

Definition print (line : string) : M (filesystem * list string) unit :=
  on_snd (modify (λ out, out ++ [line])).

Definition startup_config : M (filesystem * list string) unit :=
  st ← get;
  if negb (path_exists CONFIG_PATH st.1) then
    try_except
      (on_fst (mkdir_exist_ok CONFIG_DIR);;
       on_fst (write_text CONFIG_PATH config_text);;
       print ("Created Streamlit config at: " +:+ path_str CONFIG_PATH))
      (λ e, print ("Gagal membuat .streamlit/config.toml: " +:+ exn_str e))
  else pass.

(** ** The chunked receiver ([save_uploaded_file], lines 64 to 95)

    An upload source is a buffer with a read cursor, as [io.BytesIO], of
    which Streamlit's [UploadedFile] is a subclass.  The function looks its
    argument up by attribute, so the record says which of them it has:
    whether [seek] works, the [size] attribute, and whether there is a
    [getbuffer]. *)

Record upload_source := {
  up_name : string;
  up_data : list byte;
  up_pos : nat;
  up_seekable : bool;
  up_size : option nat;
  up_getbuffer : bool
}.

Definition set_pos (n : nat) (u : upload_source) : upload_source :=
  {| up_name := up_name u; up_data := up_data u; up_pos := n;
     up_seekable := up_seekable u; up_size := up_size u;
     up_getbuffer := up_getbuffer u |}.

(** [u.seek(0)] *)
Definition seek0 (u : upload_source) : upload_source + exn :=
  if up_seekable u then inl (set_pos 0 u)
  else inr (OSError "underlying stream is not seekable").

(** [u.read(n)]: at most [n] bytes from the cursor, which moves past them. *)
Definition read (u : upload_source) (n : nat) : list byte * upload_source :=
  let chunk := take n (drop (up_pos u) (up_data u)) in
  (chunk, set_pos (up_pos u + length chunk) u).

(** What is left to read. *)
Definition remaining (u : upload_source) : list byte :=
  drop (up_pos u) (up_data u).

(** [getattr(u, "size", None) or getattr(u, "getbuffer", lambda: None)()],
    with the [len] of a [memoryview]: a size of zero is false, so it also
    falls through to the buffer. *)
Definition total_of (u : upload_source) : option nat :=
  match up_size u with
  | Some (S n) => Some (S n)
  | _ => if up_getbuffer u then Some (length (up_data u)) else None
  end.

(** A progress callback, acting on a state [C] of its own. *)
Definition callback (C : Type) : Type := nat → option nat → M C unit.

Section Receiver.
Context {C : Type}.

Definition chunk_size : nat := 1024 * 1024.

(** A value together with the fact that it is the value of [a]. *)
Definition inspect {A} (a : A) : {b | a = b} := exist _ a eq_refl.

(** The [while True] loop, for any chunk size.  It ends because a chunk
    that is not empty moves the cursor. *)
Equations? save_loop (size : nat) (dest_path : path) (total : option nat)
    (progress_callback : option (callback C))
    (uploaded_file : upload_source) (written : nat)
    : M (filesystem * C) unit
    by wf (length (remaining uploaded_file)) lt :=
  save_loop size dest_path total progress_callback uploaded_file written
    with inspect (read uploaded_file size) := {
    | exist _ ([], _) _ => pass
    | exist _ (b :: chunk, u') Heq =>
        on_fst (f_write dest_path (b :: chunk));;
        match progress_callback with
        | Some cb =>
            try_except
              (on_snd (cb (written + length (b :: chunk)) total))
              (λ _, pass)
        | None => pass
        end;;
        save_loop size dest_path total progress_callback u'
          (written + length (b :: chunk))
    }.
Proof.
  unfold remaining; simpl.
  match goal with
  | H : take _ _ = _ :: _ |- _ =>
      pose proof (f_equal length H) as Hlen; rewrite H
  end.
  rewrite length_take in Hlen. simpl in Hlen |- *.
  rewrite !length_drop in *. lia.
Qed.

Definition save_uploaded_file (uploaded_file : upload_source)
    (dest_path : path) (progress_callback : option (callback C))
    : M (filesystem * C) path :=
  let uploaded_file :=
    match seek0 uploaded_file with inl u => u | inr _ => uploaded_file end in
  let total := total_of uploaded_file in
  on_fst (open_w dest_path);;
  save_loop chunk_size dest_path total progress_callback uploaded_file 0;;
  mret dest_path.

End Receiver.

(** ** Names of uploads ([pathlib]'s [stem] and [suffix])

    [s.rfind(".")], and the two halves of a name around its last dot; a dot
    that starts or ends the name does not count. *)

Fixpoint rfind (c : ascii) (s : string) : option nat :=
  match s with
  | EmptyString => None
  | String a s' =>
      match rfind c s' with
      | Some i => Some (S i)
      | None => if Ascii.eqb a c then Some 0 else None
      end
  end.

Definition split_at_dot (name : string) : option nat :=
  match rfind "." name with
  | Some i => if (0 <? i) && (i <? String.length name - 1) then Some i else None
  | None => None
  end.

Definition stem (name : string) : string :=
  match split_at_dot name with
  | Some i => String.substring 0 i name
  | None => name
  end.

Definition suffix (name : string) : string :=
  match split_at_dot name with
  | Some i => String.substring i (String.length name - i) name
  | None => ""
  end.

(** A name that is one entry of a directory: not empty, not [.] or [..],
    without separator and without the null character.  For such a name
    [Path(d) / name] is the entry [name] of [d], and [stem] and [suffix] are
    those of [name]; for other names [pathlib] resolves the name first. *)
Definition plain_name (name : string) : bool :=
  negb (String.eqb name "") && negb (String.eqb name ".")
  && negb (String.eqb name "..")
  && forallb (λ c, negb (Ascii.eqb c "/") && negb (Ascii.eqb c "000"))
       (String.list_ascii_of_string name).

(** ** The world outside the script

    Child processes are known by an opaque handle.  The record gives, for
    each question the script asks the operating system, the answer it
    gets; the clock is read by position, [ticks] counting the readings. *)

Definition handle := nat.
Definition loc := positive.

Record world := {
  strftime : nat → string;          (* time.strftime('%H:%M:%S') *)
  time_time : nat → Z;              (* int(time.time()) *)
  ffmpeg_version_ok : bool;         (* does [ffmpeg -version] run and exit with 0 *)
  Popen : list string → handle + exn;
  poll : handle → option Z;         (* [None] while the child is running *)
  terminate : handle → option exn;  (* [None] when the call returns *)
  wait : handle → Z → option exn;   (* [None] when the child exits in time *)
  kill : handle → option exn
}.

(** Calls made on child processes, in order. *)
Inductive os_event :=
| EvPopen (cmd : list string)
| EvThread (h : handle)
| EvTerminate (h : handle)
| EvWait (h : handle) (timeout : Z)
| EvKill (h : handle).

(** Messages shown by [st.error], [st.warning], [st.success], [st.info]. *)
Inductive ui_msg :=
| st_error (text : string)
| st_warning (text : string)
| st_success (text : string)
| st_info (text : string).

(** The placeholder [status_text] of the upload. *)
Inductive status :=
| status_text_text (s : string)
| status_text_success (s : string)
| status_text_error (s : string).

(** The progress bar holds a fraction, kept here as numerator and
    denominator; the script computes it in floating point. *)
Record widgets := {
  progress_bar : option (nat * nat);
  status_text : option status
}.

(** [st.session_state], with the two keys the script uses.  An absent key
    is [None]; [ffmpeg_proc] can also be present with the value [None]. *)
Record session_state := {
  ss_logs : option loc;
  ss_ffmpeg_proc : option (option handle)
}.

Record state := {
  fs : filesystem;
  session : session_state;
  heap : gmap loc (list string);   (* the list objects *)
  logs : loc;                      (* the local variable [logs] *)
  log_box : option string;
  ui : list ui_msg;
  upload_ui : widgets;
  os_trace : list os_event;
  ticks : nat
}.

Definition set_fs (x : filesystem) (s : state) : state :=
  {| fs := x; session := session s; heap := heap s; logs := logs s;
     log_box := log_box s; ui := ui s; upload_ui := upload_ui s;
     os_trace := os_trace s; ticks := ticks s |}.
Definition set_session (x : session_state) (s : state) : state :=
  {| fs := fs s; session := x; heap := heap s; logs := logs s;
     log_box := log_box s; ui := ui s; upload_ui := upload_ui s;
     os_trace := os_trace s; ticks := ticks s |}.
Definition set_heap (x : gmap loc (list string)) (s : state) : state :=
  {| fs := fs s; session := session s; heap := x; logs := logs s;
     log_box := log_box s; ui := ui s; upload_ui := upload_ui s;
     os_trace := os_trace s; ticks := ticks s |}.
Definition set_logs (x : loc) (s : state) : state :=
  {| fs := fs s; session := session s; heap := heap s; logs := x;
     log_box := log_box s; ui := ui s; upload_ui := upload_ui s;
     os_trace := os_trace s; ticks := ticks s |}.
Definition set_log_box (x : option string) (s : state) : state :=
  {| fs := fs s; session := session s; heap := heap s; logs := logs s;
     log_box := x; ui := ui s; upload_ui := upload_ui s;
     os_trace := os_trace s; ticks := ticks s |}.
Definition set_ui (x : list ui_msg) (s : state) : state :=
  {| fs := fs s; session := session s; heap := heap s; logs := logs s;
     log_box := log_box s; ui := x; upload_ui := upload_ui s;
     os_trace := os_trace s; ticks := ticks s |}.
Definition set_upload_ui (x : widgets) (s : state) : state :=
  {| fs := fs s; session := session s; heap := heap s; logs := logs s;
     log_box := log_box s; ui := ui s; upload_ui := x;
     os_trace := os_trace s; ticks := ticks s |}.
Definition set_os_trace (x : list os_event) (s : state) : state :=
  {| fs := fs s; session := session s; heap := heap s; logs := logs s;
     log_box := log_box s; ui := ui s; upload_ui := upload_ui s;
     os_trace := x; ticks := ticks s |}.
Definition set_ticks (x : nat) (s : state) : state :=
  {| fs := fs s; session := session s; heap := heap s; logs := logs s;
     log_box := log_box s; ui := ui s; upload_ui := upload_ui s;
     os_trace := os_trace s; ticks := x |}.

Definition set_ss_logs (x : option loc) (ss : session_state) : session_state :=
  {| ss_logs := x; ss_ffmpeg_proc := ss_ffmpeg_proc ss |}.
Definition set_ss_ffmpeg_proc (x : option (option handle))
    (ss : session_state) : session_state :=
  {| ss_logs := ss_logs ss; ss_ffmpeg_proc := x |}.

(** The list a reference points to. *)
Definition deref (h : gmap loc (list string)) (l : loc) : list string :=
  default [] (h !! l).

(** The log buffer kept in the session: [st.session_state["logs"]]. *)
Definition stored_logs (s : state) : list string :=
  match ss_logs (session s) with
  | Some l => deref (heap s) l
  | None => []
  end.

(** [st.session_state.get("ffmpeg_proc", None)] *)
Definition stored_proc (s : state) : option handle :=
  match ss_ffmpeg_proc (session s) with
  | Some p => p
  | None => None
  end.

(** The line [f"[{now}] {msg}"] of the log. *)
Definition log_line (now msg : string) : string := "[" +:+ now +:+ "] " +:+ msg.

(** ** The script *)

Section Script.
Variable w : world.

Definition st_show (m : ui_msg) : M state unit :=
  modify (λ s, set_ui (ui s ++ [m]) s).

Definition os_call (e : os_event) : M state unit :=
  modify (λ s, set_os_trace (os_trace s ++ [e]) s).

(** A reading of the clock through [read_as]. *)
Definition clock {A} (read_as : world → nat → A) : M state A :=
  s ← get;
  modify (set_ticks (S (ticks s)));;
  mret (read_as w (ticks s)).

(** An answer of the operating system that is [None] or an exception. *)
Definition answer (r : option exn) : M state unit :=
  match r with
  | None => pass
  | Some e => raise e
  end.

(** [ffmpeg_available] (lines 57 to 62) *)
Definition ffmpeg_available : M state bool := mret (ffmpeg_version_ok w).

(** [logs = st.session_state.get("logs", [])] (line 222): the stored list
    itself, or a new empty list that is not stored. *)
Definition bind_logs : M state unit :=
  s ← get;
  match ss_logs (session s) with
  | Some l => modify (set_logs l)
  | None =>
      let l := fresh (dom (heap s)) in
      modify (λ s, set_logs l (set_heap (<[l := []]> (heap s)) s))
  end.

(** [append_log] (lines 223 to 228) *)
Definition append_log (msg : string) : M state unit :=
  now ← clock strftime;
  (* logs.append(...) *)
  modify (λ s, set_heap
     (<[logs s := deref (heap s) (logs s) ++ [log_line now msg]]> (heap s)) s);;
  (* logs_trimmed = logs[-200:], a new list *)
  s ← get;
  let logs_trimmed := slice_last 200 (deref (heap s) (logs s)) in
  let l' := fresh (dom (heap s)) in
  modify (set_heap (<[l' := logs_trimmed]> (heap s)));;
  (* st.session_state["logs"] = logs_trimmed *)
  modify (λ s, set_session (set_ss_logs (Some l') (session s)) s);;
  (* log_box.text("\n".join(logs_trimmed)) *)
  modify (set_log_box (Some (String.concat nl logs_trimmed))).

(** [start_ffmpeg] (lines 100 to 141).  The reader thread it starts runs
    beside the script and is recorded as an event only. *)
Definition start_ffmpeg (video_path stream_key : string) (is_shorts : bool)
    (log_writer : string → M state unit) : M state (option handle) :=
  let cmd := ffmpeg_cmd video_path stream_key is_shorts in
  log_writer ("Menjalankan ffmpeg: " +:+ String.concat " " cmd);;
  proc ← try_except_cls is_FileNotFoundError
            (os_call (EvPopen cmd);;
             match Popen w cmd with
             | inl h => mret (Some h)
             | inr e => raise e
             end)
            (λ _,
             log_writer "Error: ffmpeg tidak ditemukan. Pastikan ffmpeg terinstall dan ada di PATH.";;
             mret None);
  match proc with
  | None => mret None
  | Some h => os_call (EvThread h);; mret (Some h)
  end.

(** The upload block of [main] (lines 178 to 206). *)

Definition UPLOAD_DIR : string := "uploads".

Definition progress_cb : callback widgets := λ written total,
  match total with
  | Some (S t) =>
      modify (λ _, {| progress_bar := Some (written `min` S t, S t);
                      status_text := Some (status_text_text
                        ("Mengupload: " +:+ str_of_Z (Z.of_nat written) +:+ "/"
                         +:+ str_of_Z (Z.of_nat (S t)) +:+ " bytes")) |})
  | _ =>
      modify (λ u, {| progress_bar := progress_bar u;
                      status_text := Some (status_text_text
                        ("Mengupload: " +:+ str_of_Z (Z.of_nat written)
                         +:+ " bytes")) |})
  end.

Definition with_upload_state {A} (m : M (filesystem * widgets) A) : M state A :=
  λ s, match m (fs s, upload_ui s) with
       | Ok a (f, u) => Ok a (set_upload_ui u (set_fs f s))
       | Raise e (f, u) => Raise e (set_upload_ui u (set_fs f s))
       end.

Definition set_progress (x : nat * nat) : M state unit :=
  modify (λ s, set_upload_ui {| progress_bar := Some x;
                                status_text := status_text (upload_ui s) |} s).

Definition set_status (x : option status) : M state unit :=
  modify (λ s, set_upload_ui {| progress_bar := progress_bar (upload_ui s);
                                status_text := x |} s).

(** The destination of an upload (lines 182 to 186), for a [plain_name]:
    [UPLOAD_DIR / name] is then the entry [name] of [uploads], and
    [dest_path.stem] and [dest_path.suffix] are those of [name]. *)
Definition upload_dest (name : string) : M state path :=
  let dest_path := {| p_dir := UPLOAD_DIR; p_name := name |} in
  s ← get;
  if path_exists dest_path (fs s) then
    stamp ← clock time_time;
    mret {| p_dir := UPLOAD_DIR;
            p_name := stem name +:+ "_" +:+ str_of_Z stamp +:+ suffix name |}
  else mret dest_path.

Definition main_upload (uploaded_file : option upload_source)
    : M state (option string) :=
  match uploaded_file with
  | None => mret None
  | Some up =>
      dest_path ← upload_dest (up_name up);
      set_progress (0, 1);;
      set_status None;;
      try_except
        (with_upload_state
           (save_uploaded_file up dest_path (Some progress_cb));;
         set_progress (1, 1);;
         set_status (Some (status_text_success
                             ("Upload selesai: " +:+ path_str dest_path)));;
         mret (Some (path_str dest_path)))
        (λ e,
         set_status (Some (status_text_error
                             ("Gagal menyimpan file: " +:+ exn_str e)));;
         mret None)
  end.

(** The choice of the video (lines 209 to 214). *)
Definition choose_video (selected_video : string) (saved_path : option string)
    : option string :=
  if str_truthy selected_video && negb (String.eqb selected_video "-- pilih --")
  then Some selected_video
  else if opt_str_truthy saved_path then saved_path
  else None.

(** The test [proc and getattr(proc, "poll", lambda: 0)() is None]: the
    stored process when there is one and its [poll] says it is running. *)
Definition running_proc (proc : option handle) : option handle :=
  match proc with
  | Some h => match poll w h with None => Some h | Some _ => None end
  | None => None
  end.

Definition set_stored_proc (p : option handle) : M state unit :=
  modify (λ s, set_session (set_ss_ffmpeg_proc (Some p) (session s)) s).

(** The start button (lines 241 to 260). *)
Definition main_start (video_path : option string) (stream_key : string)
    (is_shorts : bool) : M state unit :=
  if negb (opt_str_truthy video_path) then
    st_show (st_error "Pilih video atau upload dulu sebelum memulai streaming.")
  else if negb (str_truthy stream_key) then
    st_show (st_error "Masukkan Stream Key YouTube.")
  else
    available ← ffmpeg_available;
    if negb available then
      st_show (st_error "ffmpeg tidak tersedia. Install ffmpeg dulu.")
    else
      s ← get;
      match running_proc (stored_proc s) with
      | Some _ =>
          st_show (st_warning "Proses ffmpeg sedang berjalan. Hentikan dulu sebelum memulai baru.")
      | None =>
          append_log ("Memulai streaming: " +:+ default "" video_path);;
          proc ← start_ffmpeg (default "" video_path) stream_key is_shorts
                   append_log;
          match proc with
          | Some h =>
              set_stored_proc (Some h);;
              st_show (st_success "Streaming dimulai.")
          | None =>
              st_show (st_error "Gagal menjalankan ffmpeg. Periksa log.")
          end
      end.

(** The stop button (lines 262 to 278). *)
Definition main_stop : M state unit :=
  s ← get;
  match running_proc (stored_proc s) with
  | Some proc =>
      append_log "Menghentikan proses ffmpeg...";;
      try_except
        (os_call (EvTerminate proc);; answer (terminate w proc);;
         try_except
           (os_call (EvWait proc 5);; answer (wait w proc 5))
           (λ _, os_call (EvKill proc);; answer (kill w proc));;
         append_log "Proses ffmpeg dihentikan.")
        (λ e, append_log ("Gagal menghentikan ffmpeg: " +:+ exn_str e));;
      set_stored_proc None
  | None =>
      st_show (st_info "Tidak ada proses ffmpeg aktif.")
  end.

(** The log panel at the end of a run (lines 281 to 284). *)
Definition show_logs : M state unit :=
  s ← get;
  match ss_logs (session s) with
  | Some l => modify (set_log_box (Some (String.concat nl (deref (heap s) l))))
  | None =>
      modify (set_log_box
        (Some "Log kosong. Klik 'Mulai Streaming' untuk melihat output ffmpeg."))
  end.

(** What the operator did before a run of the script. *)
Record inputs := {
  selected_video : string;
  uploaded_file : option upload_source;
  stream_key_input : string;
  is_shorts_input : bool;
  start_btn : bool;
  stop_btn : bool
}.

(** One run of [main] (lines 146 to 296), without the widgets that only
    draw. *)
Definition main (i : inputs) : M state unit :=
  available ← ffmpeg_available;
  (if negb available then
     st_show (st_warning "ffmpeg tidak terdeteksi di PATH. Silakan install ffmpeg untuk melakukan streaming.");;
     st_show (st_info "Contoh install (Ubuntu): `sudo apt update && sudo apt install ffmpeg`")
   else pass);;
  saved_path ← main_upload (uploaded_file i);
  let video_path := choose_video (selected_video i) saved_path in
  bind_logs;;
  (if start_btn i
   then main_start video_path (stream_key_input i) (is_shorts_input i)
   else pass);;
  (if stop_btn i then main_stop else pass);;
  show_logs;;
  match video_path with
  | Some v =>
      if str_truthy v
      then st_show (st_info ("Video yang akan di-stream: " +:+ v))
      else pass
  | None => pass
  end.

End Script.

(** A session that has not run the script yet, on a given file system. *)
Definition fresh_state (f : filesystem) : state :=
  {| fs := f;
     session := {| ss_logs := None; ss_ffmpeg_proc := None |};
     heap := ∅; logs := 1%positive; log_box := None; ui := [];
     upload_ui := {| progress_bar := None; status_text := None |};
     os_trace := []; ticks := 0 |}.

(** ** The rest of the script *)

(** [try: m  finally: fin]: [fin] runs in both cases; when it raises, its
    exception is the one that goes on. *)
Definition try_finally {S A} (m : M S A) (fin : M S unit) : M S A :=
  λ s, match m s with
       | Ok a s' =>
           match fin s' with
           | Ok _ s'' => Ok a s''
           | Raise e s'' => Raise e s''
           end
       | Raise e s' =>
           match fin s' with
           | Ok _ s'' => Raise e s''
           | Raise e' s'' => Raise e' s''
           end
       end.

(** The directory of the uploads, made when the module is loaded (lines 54
    and 55); nothing catches its exception. *)
Definition startup_uploads : M (filesystem * list string) unit :=
  on_fst (mkdir_exist_ok UPLOAD_DIR).

(** What the module does with the file system when it is loaded (lines 21
    to 55), before [main] runs. *)
Definition startup : M (filesystem * list string) unit :=
  startup_config;; startup_uploads.

(** [reader_thread] (lines 128 to 138), run from its first call of
    [readline] to its end.  [p.stdout] is [None] or a stream, given by what
    its successive calls of [readline] do: return a line or raise; after the
    last of them [readline] returns the empty string, which ends the
    iteration as an empty line in the list does.  [strip] is [str.strip]. *)
Section Reader.
Variable strip : string → string.

Fixpoint read_lines (reads : list (string + exn))
    (writer : string → M state unit) : M state unit :=
  match reads with
  | [] => pass
  | inr e :: _ => raise e
  | inl line :: reads =>
      if str_truthy line
      then writer (strip line);; read_lines reads writer
      else pass
  end.

Definition reader_thread (p_stdout : option (list (string + exn)))
    (writer : string → M state unit) : M state unit :=
  try_finally
    (try_except
       (match p_stdout with
        | Some reads => read_lines reads writer
        | None => pass
        end)
       (λ e, writer ("Error membaca ffmpeg output: " +:+ exn_str e)))
    (writer ">> Proses ffmpeg berakhir.").

End Reader.

(** ** Outside the script thread

    Streamlit ties [st.session_state] and the elements of the page to the
    script run of the thread that uses them.  A thread that the script
    starts, as [start_ffmpeg] starts the reader on line 139, has no script
    run: there [st.session_state] is a store of the thread's own, which the
    session never sees, and drawing an element raises.  [no_session] is the
    exception that Streamlit raises then. *)

Section OffScript.
Variable w : world.
Variable no_session : exn.

(** [append_log] (lines 223 to 228) called on such a thread, as the closure
    whose [logs] is the list at [l]. *)
Definition append_log_off_script (l : loc) (msg : string) : M state unit :=
  now ← clock w strftime;
  (* logs.append(...) *)
  modify (λ s, set_heap
     (<[l := deref (heap s) l ++ [log_line now msg]]> (heap s)) s);;
  (* logs_trimmed = logs[-200:]; st.session_state["logs"] = logs_trimmed:
     the copy goes to the store of the thread, the session keeps its entry *)
  (* log_box.text("\n".join(logs_trimmed)) *)
  raise no_session.

End OffScript.

(** ** Vocabulary of the statements *)

(** The arguments of a command other than the input path, which is the
    sixth. *)
Definition options_of (cmd : list string) : list string :=
  take 5 cmd ++ drop 6 cmd.

(** The state after [append_log msg], field by field. *)
Definition after_append (w : world) (msg : string) (s : state) : state :=
  let lines := deref (heap s) (logs s)
               ++ [log_line (strftime w (ticks s)) msg] in
  let h := <[logs s := lines]> (heap s) in
  let l' := fresh (dom h) in
  {| fs := fs s;
     session := set_ss_logs (Some l') (session s);
     heap := <[l' := slice_last 200 lines]> h;
     logs := logs s;
     log_box := Some (String.concat nl (slice_last 200 lines));
     ui := ui s; upload_ui := upload_ui s; os_trace := os_trace s;
     ticks := S (ticks s) |}.

(** [for msg in msgs: append_log(msg)] *)
Fixpoint append_all (w : world) (msgs : list string) : M state unit :=
  match msgs with
  | [] => pass
  | msg :: msgs => append_log w msg;; append_all w msgs
  end.

(** The lines that appending [msgs] writes when the clock has been read
    [t] times. *)
Fixpoint stamped (w : world) (t : nat) (msgs : list string) : list string :=
  match msgs with
  | [] => []
  | msg :: msgs => log_line (strftime w t) msg :: stamped w (S t) msgs
  end.

Definition after_all (w : world) (msgs : list string) (s : state) : state :=
  foldl (λ s msg, after_append w msg s) s msgs.

(** A run of the script down to line 222, followed by the appends it
    makes, and a sequence of such runs in one session. *)
Definition run_appends (w : world) (msgs : list string) : M state unit :=
  bind_logs;; append_all w msgs.

Fixpoint script_runs (w : world) (runs : list (list string)) : M state unit :=
  match runs with
  | [] => pass
  | msgs :: runs => run_appends w msgs;; script_runs w runs
  end.

(** The calls [main_stop] makes on a running child: the signal, then the
    wait of five seconds unless the signal failed, then the kill if the wait
    failed. *)
Definition stop_calls (w : world) (h : handle) : list os_event :=
  EvTerminate h ::
  match terminate w h with
  | Some _ => []
  | None =>
      EvWait h 5 ::
      match wait w h 5 with
      | None => []
      | Some _ => [EvKill h]
      end
  end.

(** The second line [main_stop] logs on a running child. *)
Definition stop_report (w : world) (h : handle) : string :=
  match terminate w h with
  | Some e => "Gagal menghentikan ffmpeg: " +:+ exn_str e
  | None =>
      match wait w h 5 with
      | None => "Proses ffmpeg dihentikan."
      | Some _ =>
          match kill w h with
          | None => "Proses ffmpeg dihentikan."
          | Some e => "Gagal menghentikan ffmpeg: " +:+ exn_str e
          end
      end
  end.

(** The message shown on the start button, when a child is running, for a
    request that the earlier checks of [main_start] may have turned down. *)
Definition start_refusal (w : world) (video_path : option string)
    (stream_key : string) : ui_msg :=
  if negb (opt_str_truthy video_path) then
    st_error "Pilih video atau upload dulu sebelum memulai streaming."
  else if negb (str_truthy stream_key) then
    st_error "Masukkan Stream Key YouTube."
  else if negb (ffmpeg_version_ok w) then
    st_error "ffmpeg tidak tersedia. Install ffmpeg dulu."
  else
    st_warning "Proses ffmpeg sedang berjalan. Hentikan dulu sebelum memulai baru.".

(** The three lines a start logs when the spawn does not find the
    encoder. *)
Definition missing_binary_lines (video_path stream_key : string)
    (is_shorts : bool) : list string :=
  [ "Memulai streaming: " +:+ video_path;
    "Menjalankan ffmpeg: "
      +:+ String.concat " " (ffmpeg_cmd video_path stream_key is_shorts);
    "Error: ffmpeg tidak ditemukan. Pastikan ffmpeg terinstall dan ada di PATH." ].

(** What the receiver copies: the whole buffer when [seek(0)] works, what
    follows the cursor when it does not. *)
Definition readable (u : upload_source) : list byte :=
  if up_seekable u then up_data u else drop (up_pos u) (up_data u).

(** A call of the progress callback whose exception, if any, is dropped. *)
Definition call_quietly {C} (cb : option (callback C)) (total : option nat)
    (c : C) (written : nat) : C :=
  match cb with
  | Some g => final (g written total c)
  | None => c
  end.

(** The number of chunks of [size] bytes that cover [n] bytes. *)
Definition chunk_count (size n : nat) : nat := (n + size - 1) / size.

(** The byte counts after each chunk when [n] bytes are copied in chunks
    of [size], starting from [written]: every chunk is full but the last. *)
Definition progress_points (size written n : nat) : list nat :=
  (λ k, written + (k * size) `min` n) <$> seq 1 (chunk_count size n).


(** A working directory in which the settings file can be written: the
    file system takes changes, [.streamlit] is not a regular file, and
    nothing that is not a file sits at the path of the settings. *)
Definition config_writable (f : filesystem) : bool :=
  negb (read_only f)
  && match nodes f !! CONFIG_DIR with Some (File _) => false | _ => true end
  && match nodes f !! path_str CONFIG_PATH with
     | Some Dir => false
     | _ => true
     end.

(** ** Sample worlds, file systems and sessions *)

(** A world with the encoder installed, in which every child keeps
    running and ignores the termination signal. *)
Definition world_ok : world :=
  {| strftime := λ n, "12:00:0" +:+ str_of_Z (Z.of_nat n);
     time_time := λ _, 1700000000%Z;
     ffmpeg_version_ok := true;
     Popen := λ _, inl 7;
     poll := λ _, None;
     terminate := λ _, None;
     wait := λ _ _, Some (TimeoutExpired "timed out after 5 seconds");
     kill := λ _, None |}.

(** A world without the encoder: the probe fails and so does any spawn. *)
Definition world_no_ffmpeg : world :=
  {| strftime := strftime world_ok;
     time_time := time_time world_ok;
     ffmpeg_version_ok := false;
     Popen := λ _, inr (FileNotFoundError
                          "[Errno 2] No such file or directory: 'ffmpeg'");
     poll := λ _, Some 0%Z;
     terminate := λ _, None;
     wait := λ _ _, None;
     kill := λ _, None |}.

(** The encoder is there for the probe and gone for the spawn. *)
Definition world_ffmpeg_removed : world :=
  {| strftime := strftime world_ok;
     time_time := time_time world_ok;
     ffmpeg_version_ok := true;
     Popen := Popen world_no_ffmpeg;
     poll := poll world_no_ffmpeg;
     terminate := terminate world_no_ffmpeg;
     wait := wait world_no_ffmpeg;
     kill := kill world_no_ffmpeg |}.

(** A file system with an empty [uploads] directory. *)
Definition fs_uploads : filesystem :=
  {| nodes := {[ "uploads" := Dir ]}; read_only := false |}.

(** An empty working directory on a read-only file system. *)
Definition fs_read_only : filesystem := {| nodes := ∅; read_only := true |}.

(** A working directory where [.streamlit] is a regular file. *)
Definition fs_blocked : filesystem :=
  {| nodes := {[ ".streamlit" := File [] ]}; read_only := false |}.

(** An [uploads] directory that holds [video.mp4] and, from an earlier
    upload at the second 1700000000, [video_1700000000.mp4]. *)
Definition fs_collision : filesystem :=
  {| nodes := {[ "uploads" := Dir;
                 "uploads/video.mp4" := File [x01; x02; x03]%byte;
                 "uploads/video_1700000000.mp4" := File [x0a; x0b]%byte ]};
     read_only := false |}.

(** A session whose stored handle is the child [7]. *)
Definition state_streaming : state :=
  set_session {| ss_logs := None; ss_ffmpeg_proc := Some (Some 7) |}
    (fresh_state fs_uploads).

(** A run of the script in which the operator, with a video chosen and a
    key typed, presses the start button. *)
Definition press_start : inputs :=
  {| selected_video := "uploads/video.mp4"; uploaded_file := None;
     stream_key_input := "abc123"; is_shorts_input := false;
     start_btn := true; stop_btn := false |}.

(** An upload of five bytes, read to its end once already. *)
Definition upload_five : upload_source :=
  {| up_name := "video.mp4";
     up_data := [x00; x00; x00; x18; x66]%byte;
     up_pos := 5; up_seekable := true;
     up_size := Some 5; up_getbuffer := true |}.

Definition dest_video : path := {| p_dir := "uploads"; p_name := "video.mp4" |}.

Definition dest_stamped : path :=
  {| p_dir := "uploads"; p_name := "video_1700000000.mp4" |}.

(** A callback that notes its arguments. *)
Definition cb_record : callback (list (nat * option nat)) :=
  λ written total, modify (λ calls, calls ++ [(written, total)]).

(** A callback that notes its arguments and then fails. *)
Definition cb_failing : callback (list (nat * option nat)) :=
  λ written total,
    cb_record written total;; raise (RuntimeError "widget is gone").

(** ** Vocabulary of the further statements *)

(** The command line as it is logged. *)
Definition command_echo (video_path stream_key : string) (is_shorts : bool)
    : string :=
  "Menjalankan ffmpeg: "
  +:+ String.concat " " (ffmpeg_cmd video_path stream_key is_shorts).

(** The two lines a start logs before the encoder is spawned. *)
Definition start_lines (video_path stream_key : string) (is_shorts : bool)
    : list string :=
  [ "Memulai streaming: " +:+ video_path;
    command_echo video_path stream_key is_shorts ].

(** A request that [main_start] takes: a video, a key, and an encoder that
    answers the probe. *)
Definition request_ok (w : world) (video_path : option string)
    (stream_key : string) : bool :=
  opt_str_truthy video_path && str_truthy stream_key && ffmpeg_version_ok w.

(** The encoder is installed and may not be run by this user. *)
Definition world_no_permission : world :=
  {| strftime := strftime world_ok;
     time_time := time_time world_ok;
     ffmpeg_version_ok := true;
     Popen := λ _, inr (OSError "[Errno 13] Permission denied: 'ffmpeg'");
     poll := poll world_ok;
     terminate := terminate world_ok;
     wait := wait world_ok;
     kill := kill world_ok |}.

(** What the reader thread hands to its writer when every call of the
    writer raises [no_session]: the first line of the stream if it has one,
    then a line about the exception of the writer; or a line about the
    exception of [readline]; and last the line of the [finally]. *)
Definition relayed_lines (strip : string → string) (no_session : exn)
    (reads : list (string + exn)) : list string :=
  match reads with
  | inl line :: _ =>
      if str_truthy line
      then [strip line; "Error membaca ffmpeg output: " +:+ exn_str no_session]
      else []
  | inr e :: _ => ["Error membaca ffmpeg output: " +:+ exn_str e]
  | [] => []
  end
  ++ [">> Proses ffmpeg berakhir."].

(** The state after [append_log_off_script], and after several calls of
    it. *)
Definition after_relay (w : world) (l : loc) (msg : string) (s : state)
    : state :=
  set_heap
    (<[l := deref (heap s) l ++ [log_line (strftime w (ticks s)) msg]]> (heap s))
    (set_ticks (S (ticks s)) s).

Definition after_relays (w : world) (l : loc) (msgs : list string) (s : state)
    : state :=
  foldl (λ s msg, after_relay w l msg s) s msgs.

(** The session after the operator has pressed the start button in a new
    one: the child [7] runs, and the reader thread holds the closure whose
    list is at [logs]. *)
Definition state_started : state :=
  final (main world_ok press_start (fresh_state fs_uploads)).

(** [str.strip] for the blank, the tab, the line feed and the carriage
    return at both ends of a line without other white space. *)
Definition trim_char (c : ascii) : bool :=
  (c =? " ")%char || (c =? "009")%char || (c =? "010")%char
  || (c =? "013")%char.

Fixpoint trim_left (s : string) : string :=
  match s with
  | String c s' => if trim_char c then trim_left s' else s
  | EmptyString => EmptyString
  end.

Definition sample_strip (s : string) : string :=
  String.rev (trim_left (String.rev (trim_left s))).

(** The path of an upload under its own name, and under the name stamped
    with the time in seconds. *)
Definition upload_path (name : string) : path :=
  {| p_dir := UPLOAD_DIR; p_name := name |}.

Definition stamped_path (name : string) (stamp : Z) : path :=
  {| p_dir := UPLOAD_DIR;
     p_name := stem name +:+ "_" +:+ str_of_Z stamp +:+ suffix name |}.

(** A destination that [open] refuses. *)
Definition open_refused (dest : path) (f : filesystem) : Prop :=
  is_dir (p_dir dest) f = false ∨
  nodes f !! path_str dest = Some Dir ∨
  read_only f = true.

(** A working directory where [uploads] is a regular file. *)
Definition fs_blocked_uploads : filesystem :=
  {| nodes := {[ "uploads" := File [] ]}; read_only := false |}.

(** Nothing is at [k]. *)
Definition absent (k : string) (f : filesystem) : bool :=
  match nodes f !! k with None => true | Some _ => false end.

(** A path of two plain names. *)
Definition plain_path (p : path) : bool :=
  plain_name (p_dir p) && plain_name (p_name p).

(** A working directory in which [uploads] is, or can be made, a
    directory. *)
Definition uploads_available (f : filesystem) : bool :=
  match nodes f !! UPLOAD_DIR with
  | Some Dir => true
  | Some (File _) => false
  | None => negb (read_only f)
  end.

(** A path that is neither [.streamlit] nor the settings file. *)
Definition not_settings (k : string) : Prop :=
  k ≠ CONFIG_DIR ∧ k ≠ path_str CONFIG_PATH.

(** What the logged command line has before the key. *)
Definition echo_before_key (video_path : string) (is_shorts : bool) : string :=
  "Menjalankan ffmpeg: "
  +:+ String.concat " "
        (take (if is_shorts then 28 else 26) (ffmpeg_cmd video_path "" is_shorts))
  +:+ " rtmp://a.rtmp.youtube.com/live2/".

(** The calls the stop button makes in a run, if it is pressed. *)
Definition stop_calls_of (w : world) (pressed : bool) (s : state)
    : list os_event :=
  if pressed then
    match running_proc w (stored_proc s) with
    | Some h => stop_calls w h
    | None => []
    end
  else [].

(** The handle stored after a run in which only the stop button can have
    been pressed. *)
Definition proc_after_stop (w : world) (pressed : bool) (s : state)
    : option handle :=
  if pressed then
    match running_proc w (stored_proc s) with
    | Some _ => None
    | None => stored_proc s
    end
  else stored_proc s.

(** What the log panel shows for a session. *)
Definition log_panel (s : state) : string :=
  match ss_logs (session s) with
  | Some l => String.concat nl (deref (heap s) l)
  | None => "Log kosong. Klik 'Mulai Streaming' untuk melihat output ffmpeg."
  end.

(** A run of the script in which the operator presses the stop button. *)
Definition press_stop : inputs :=
  {| selected_video := "-- pilih --"; uploaded_file := None;
     stream_key_input := ""; is_shorts_input := false;
     start_btn := false; stop_btn := true |}.

(** * Properties *)

(** ** The encoder command line *)

Lemma last_ffmpeg_cmd video_path stream_key is_shorts :
  last (ffmpeg_cmd video_path stream_key is_shorts)
  = Some (output_url stream_key).
Proof. by destruct is_shorts. Qed.

(** ** Running monadic code *)

Lemma bind_run {S A B} (m : M S A) (k : A → M S B) (s : S) :
  (m ≫= k) s = match m s with
               | Ok a s' => k a s'
               | Raise e s' => Raise e s'
               end.
Proof. reflexivity. Qed.

Lemma bind_ok {S A B} (m : M S A) (k : A → M S B) (s s' : S) (a : A) :
  m s = Ok a s' → (m ≫= k) s = k a s'.
Proof. intros H. by rewrite bind_run, H. Qed.

(** Unfolds the monad down to the states. *)
Ltac run_monad :=
  cbv [mbind M_bind bind mret M_ret ret get modify raise try_except
       try_except_cls on_fst on_snd];
  cbn.

(** ** The last items of a list *)

Lemma slice_last_length {A} (n : nat) (l : list A) :
  length (slice_last n l) = length l `min` n.
Proof. unfold slice_last. rewrite length_drop. lia. Qed.

Lemma slice_last_bound {A} (n : nat) (l : list A) :
  length (slice_last n l) ≤ n.
Proof. rewrite slice_last_length. lia. Qed.

(** The last [n] items are a suffix: what is dropped is dropped from the
    front and the rest keeps its order. *)
Lemma slice_last_suffix {A} (n : nat) (l : list A) :
  take (length l - n) l ++ slice_last n l = l.
Proof. apply take_drop. Qed.

Lemma slice_last_app {A} (n : nat) (l k : list A) :
  slice_last n (slice_last n l ++ k) = slice_last n (l ++ k).
Proof.
  unfold slice_last. rewrite !length_app, length_drop.
  destruct (decide (length l ≤ n)) as [Hle|Hgt].
  - replace (length l - n) with 0 by lia. by rewrite Nat.sub_0_r.
  - rewrite <- (drop_app_le l k (length l - n)) by lia.
    rewrite drop_drop. f_equal. lia.
Qed.

(** ** The log buffer *)

Lemma deref_insert_eq (h : gmap loc (list string)) l v :
  deref (<[l := v]> h) l = v.
Proof. unfold deref. by rewrite lookup_insert_eq. Qed.

Lemma deref_insert_ne (h : gmap loc (list string)) l l' v :
  l ≠ l' → deref (<[l := v]> h) l' = deref h l'.
Proof. intros. unfold deref. by rewrite lookup_insert_ne. Qed.

Lemma fresh_not_inserted (h : gmap loc (list string)) l v :
  fresh (dom (<[l := v]> h)) ≠ l.
Proof.
  intros Heq.
  pose proof (is_fresh (dom (<[l := v]> h))) as Hf.
  rewrite Heq in Hf. apply Hf. rewrite dom_insert_L. set_solver.
Qed.

Lemma append_log_run w msg s :
  append_log w msg s = Ok tt (after_append w msg s).
Proof.
  unfold append_log, after_append, clock. run_monad.
  rewrite !deref_insert_eq. reflexivity.
Qed.

Lemma after_append_stored w msg s :
  stored_logs (after_append w msg s)
  = slice_last 200 (deref (heap s) (logs s)
                    ++ [log_line (strftime w (ticks s)) msg]).
Proof. unfold stored_logs, after_append. cbn. apply deref_insert_eq. Qed.

Lemma after_append_local w msg s :
  deref (heap (after_append w msg s)) (logs (after_append w msg s))
  = deref (heap s) (logs s) ++ [log_line (strftime w (ticks s)) msg].
Proof.
  unfold after_append. cbn.
  rewrite deref_insert_ne by apply fresh_not_inserted.
  apply deref_insert_eq.
Qed.

Lemma append_all_run w msgs s :
  append_all w msgs s = Ok tt (after_all w msgs s).
Proof.
  revert s. induction msgs as [|msg msgs IH]; intros s; [done|].
  cbn [append_all]. rewrite (bind_ok _ _ _ _ _ (append_log_run w msg s)).
  apply IH.
Qed.

Lemma stamped_app w t msgs msgs' :
  stamped w t (msgs ++ msgs')
  = stamped w t msgs ++ stamped w (t + length msgs) msgs'.
Proof.
  revert t. induction msgs as [|m msgs IH]; intros t; cbn.
  - by rewrite Nat.add_0_r.
  - rewrite IH. do 3 f_equal. lia.
Qed.

Lemma after_all_cons w msg msgs s :
  after_all w (msg :: msgs) s = after_all w msgs (after_append w msg s).
Proof. reflexivity. Qed.

Lemma after_all_frame w msgs s :
  logs (after_all w msgs s) = logs s ∧
  ticks (after_all w msgs s) = ticks s + length msgs ∧
  ss_ffmpeg_proc (session (after_all w msgs s)) = ss_ffmpeg_proc (session s) ∧
  fs (after_all w msgs s) = fs s ∧
  ui (after_all w msgs s) = ui s ∧
  os_trace (after_all w msgs s) = os_trace s.
Proof.
  revert s. induction msgs as [|m msgs IH]; intros s.
  - cbn. by rewrite Nat.add_0_r.
  - rewrite after_all_cons.
    destruct (IH (after_append w m s)) as (-> & -> & -> & -> & -> & ->).
    cbn. repeat split. lia.
Qed.

Lemma after_all_local w msgs s :
  deref (heap (after_all w msgs s)) (logs (after_all w msgs s))
  = deref (heap s) (logs s) ++ stamped w (ticks s) msgs.
Proof.
  revert s. induction msgs as [|m msgs IH]; intros s.
  - cbn. by rewrite app_nil_r.
  - rewrite after_all_cons, IH, after_append_local.
    cbn. by rewrite <- app_assoc.
Qed.

Lemma after_all_snoc w msgs msg s :
  after_all w (msgs ++ [msg]) s = after_append w msg (after_all w msgs s).
Proof. unfold after_all. by rewrite foldl_app. Qed.

(** Appending through one closure: the stored buffer is the end of the
    closure's list. *)
Lemma after_all_stored w msgs msg s :
  stored_logs (after_all w (msgs ++ [msg]) s)
  = slice_last 200 (deref (heap s) (logs s)
                    ++ stamped w (ticks s) (msgs ++ [msg])).
Proof.
  rewrite after_all_snoc, after_append_stored, after_all_local.
  destruct (after_all_frame w msgs s) as (_ & -> & _).
  by rewrite stamped_app, app_assoc.
Qed.

(** Whatever list the closure holds, the stored buffer never has more than
    200 lines after an append. *)
Lemma append_log_bound w msg s :
  length (stored_logs (final (append_log w msg s))) ≤ 200.
Proof.
  rewrite append_log_run. cbn [final].
  rewrite after_append_stored. apply slice_last_bound.
Qed.

Lemma bind_logs_run s :
  ∃ s1, bind_logs s = Ok tt s1 ∧
        deref (heap s1) (logs s1) = stored_logs s ∧
        ticks s1 = ticks s ∧ session s1 = session s ∧
        stored_logs s1 = stored_logs s.
Proof.
  unfold bind_logs, stored_logs. run_monad.
  destruct (ss_logs (session s)) as [l|] eqn:Hl;
    eexists; (split; [reflexivity|]); cbn; rewrite Hl.
  - done.
  - by rewrite deref_insert_eq.
Qed.

Lemma run_appends_run w s msgs :
  ∃ s', run_appends w msgs s = Ok tt s' ∧
        ticks s' = ticks s + length msgs ∧
        stored_logs s'
        = match msgs with
          | [] => stored_logs s
          | _ => slice_last 200 (stored_logs s ++ stamped w (ticks s) msgs)
          end.
Proof.
  destruct (bind_logs_run s) as (s1 & Hrun & Hlocal & Hticks & _ & Hsame).
  exists (after_all w msgs s1). split.
  { unfold run_appends. rewrite (bind_ok _ _ _ _ _ Hrun).
    apply append_all_run. }
  destruct (after_all_frame w msgs s1) as (_ & -> & _).
  split; [by rewrite Hticks|].
  destruct msgs as [|m msgs _] using rev_ind; [exact Hsame|].
  rewrite after_all_stored, Hlocal, Hticks. by destruct msgs.
Qed.

(** What holds of C2, for the lines that the script itself appends.  After
    the script has bound [logs] (line 222), for every sequence of lines it
    appends and every state of the session: once the last of them is
    appended, the stored buffer is the last 200 lines of what was stored
    before followed by the appended lines in their order.  So it holds at
    most 200 lines, it keeps exactly the most recent ones, and what is
    dropped is dropped from the old end.  Nothing is raised. *)
Theorem log_buffer_bounded_fifo w s msgs msg :
  let r := (bind_logs;; append_all w (msgs ++ [msg])) s in
  let appended := stored_logs s ++ stamped w (ticks s) (msgs ++ [msg]) in
  returned r = Some tt ∧
  length (stored_logs (final r)) ≤ 200 ∧
  length (stored_logs (final r)) = length appended `min` 200 ∧
  stored_logs (final r) = slice_last 200 appended ∧
  take (length appended - 200) appended ++ stored_logs (final r) = appended.
Proof.
  intros r appended.
  destruct (run_appends_run w s (msgs ++ [msg])) as (s' & Hr & _ & Hstored).
  unfold run_appends in Hr. subst r. rewrite Hr. cbn [final returned].
  assert (Hs' : stored_logs s' = slice_last 200 appended)
    by (rewrite Hstored; by destruct msgs).
  rewrite !Hs'. split; [done|]. split; [apply slice_last_bound|].
  split; [apply slice_last_length|]. split; [done|]. apply slice_last_suffix.
Qed.

(** Run after run in one session, starting with a buffer of at most 200
    lines: the stored buffer is the last 200 of all lines appended so far. *)
Lemma log_buffer_across_runs w runs :
  ∀ s, length (stored_logs s) ≤ 200 →
    ∃ s', script_runs w runs s = Ok tt s' ∧
          ticks s' = ticks s + length (concat runs) ∧
          stored_logs s'
          = slice_last 200 (stored_logs s ++ stamped w (ticks s) (concat runs)).
Proof.
  induction runs as [|msgs runs IH]; intros s Hbound.
  - exists s. cbn. rewrite Nat.add_0_r, app_nil_r.
    unfold slice_last. by replace (length (stored_logs s) - 200) with 0 by lia.
  - destruct (run_appends_run w s msgs) as (s1 & Hrun & Hticks & Hstored).
    assert (Hs1 : stored_logs s1
                  = slice_last 200 (stored_logs s ++ stamped w (ticks s) msgs)).
    { rewrite Hstored. destruct msgs; [|done]. cbn. rewrite app_nil_r.
      unfold slice_last.
      by replace (length (stored_logs s) - 200) with 0 by lia. }
    destruct (IH s1) as (s' & Hruns & Hticks' & Hstored').
    { rewrite Hs1. apply slice_last_bound. }
    exists s'. split.
    { cbn [script_runs]. by rewrite (bind_ok _ _ _ _ _ Hrun). }
    cbn [concat]. rewrite length_app, stamped_app.
    split; [lia|].
    by rewrite Hstored', Hs1, Hticks, slice_last_app, app_assoc.
Qed.

(** C2 fails on the script for the lines of the encoder.  The operator
    presses the start button in a new session: the child is spawned, the
    reader thread is started, and the two lines of the start are stored.
    The encoder prints a line.  The reader thread, whose writer is
    [append_log], adds the line to the list of its closure; the writer
    raising outside the script run, it adds two lines more, about that
    exception and about the end, and ends with the exception.  The stored
    buffer still is the two lines of the start: it holds two lines of its
    200, and the three lines appended last are not among them. *)
Theorem relay_lines_never_stored (no_session : exn) :
  let r := reader_thread sample_strip (Some [inl ("frame=1 fps=25" +:+ nl)])
             (append_log_off_script world_ok no_session (logs state_started))
             state_started in
  let relayed :=
    stamped world_ok 2
      [ "frame=1 fps=25";
        "Error membaca ffmpeg output: " +:+ exn_str no_session;
        ">> Proses ffmpeg berakhir." ] in
  stored_proc state_started = Some 7 ∧
  os_trace state_started
  = [EvPopen (ffmpeg_cmd "uploads/video.mp4" "abc123" false); EvThread 7] ∧
  stored_logs state_started
  = stamped world_ok 0 (start_lines "uploads/video.mp4" "abc123" false) ∧
  r = Raise no_session (final r) ∧
  deref (heap (final r)) (logs state_started)
  = stored_logs state_started ++ relayed ∧
  stored_logs (final r) = stored_logs state_started ∧
  length (stored_logs (final r)) = 2.
Proof. vm_compute. repeat split. Qed.

(** ** What an append leaves alone *)

Lemma after_append_logs w msg s : logs (after_append w msg s) = logs s.
Proof. reflexivity. Qed.
Lemma after_append_ticks w msg s : ticks (after_append w msg s) = S (ticks s).
Proof. reflexivity. Qed.
Lemma after_append_proc w msg s :
  ss_ffmpeg_proc (session (after_append w msg s)) = ss_ffmpeg_proc (session s).
Proof. reflexivity. Qed.
Lemma after_append_stored_proc w msg s :
  stored_proc (after_append w msg s) = stored_proc s.
Proof. reflexivity. Qed.
Lemma after_append_ui w msg s : ui (after_append w msg s) = ui s.
Proof. reflexivity. Qed.
Lemma after_append_os_trace w msg s :
  os_trace (after_append w msg s) = os_trace s.
Proof. reflexivity. Qed.
Lemma after_append_fs w msg s : fs (after_append w msg s) = fs s.
Proof. reflexivity. Qed.

Lemma stored_logs_set_ui x s : stored_logs (set_ui x s) = stored_logs s.
Proof. reflexivity. Qed.
Lemma stored_logs_set_os_trace x s :
  stored_logs (set_os_trace x s) = stored_logs s.
Proof. reflexivity. Qed.
Lemma stored_logs_set_proc x s :
  stored_logs (set_session (set_ss_ffmpeg_proc x (session s)) s)
  = stored_logs s.
Proof. reflexivity. Qed.

Create Rewrite HintDb state_fields.
#[local] Hint Rewrite
  after_append_logs after_append_ticks after_append_proc
  after_append_stored_proc after_append_ui after_append_os_trace
  after_append_fs after_append_stored after_append_local
  stored_logs_set_ui stored_logs_set_os_trace stored_logs_set_proc
  : state_fields.

Local Opaque append_log after_append stored_logs.

Ltac run_append :=
  repeat (rewrite append_log_run; cbn [final returned]).

(** Reads the fields of a state reached through appends and setters. *)
Ltac read_fields :=
  repeat (progress (cbn; autorewrite with state_fields)).

(** ** The stop button *)

Lemma running_proc_Some w s h :
  stored_proc s = Some h → poll w h = None →
  running_proc w (stored_proc s) = Some h.
Proof. intros -> Hp. unfold running_proc. by rewrite Hp. Qed.

Lemma running_proc_None w s :
  (stored_proc s = None ∨ ∃ h rc, stored_proc s = Some h ∧ poll w h = Some rc) →
  running_proc w (stored_proc s) = None.
Proof.
  intros [->|(h & rc & -> & Hp)]; [done|].
  unfold running_proc. by rewrite Hp.
Qed.

(** C5. When the stored child is running, the stop button sends it the
    termination signal, then waits for it with a timeout of 5 seconds, and
    kills it when that wait fails; a signal that fails ends the attempt.
    In every one of these outcomes nothing is raised, the log gets the
    notice and the report of the outcome, and the stored handle is [None]
    afterward. *)
Theorem stop_running_clears_handle w s h :
  stored_proc s = Some h → poll w h = None →
  ∃ s', main_stop w s = Ok tt s' ∧
        ss_ffmpeg_proc (session s') = Some None ∧
        stored_proc s' = None ∧
        os_trace s' = os_trace s ++ stop_calls w h ∧
        stored_logs s'
        = slice_last 200
            (deref (heap s) (logs s)
             ++ stamped w (ticks s)
                  ["Menghentikan proses ffmpeg..."; stop_report w h]) ∧
        ui s' = ui s.
Proof.
  intros Hs Hp. unfold main_stop, stop_calls, stop_report.
  cbv [mbind M_bind bind get]. rewrite (running_proc_Some w s h Hs Hp).
  rewrite append_log_run.
  unfold os_call, answer, set_stored_proc.
  destruct (terminate w h) as [e|]; [|destruct (wait w h 5) as [e|];
    [destruct (kill w h) as [e'|]|]];
    run_monad; run_append;
    (eexists; split; [reflexivity|]);
    unfold stored_proc; read_fields;
    rewrite <- ?app_assoc; done.
Qed.

Lemma stop_running_clears_handle_witness :
  stored_proc state_streaming = Some 7 ∧
  poll world_ok 7 = None ∧
  ∃ s', main_stop world_ok state_streaming = Ok tt s' ∧
        ss_ffmpeg_proc (session s') = Some None ∧
        stored_proc s' = None ∧
        os_trace s' = [EvTerminate 7; EvWait 7 5; EvKill 7] ∧
        stored_logs s'
        = [ "[12:00:00] Menghentikan proses ffmpeg...";
            "[12:00:01] Proses ffmpeg dihentikan." ] ∧
        ui s' = [].
Proof.
  split; [reflexivity|]. split; [reflexivity|].
  apply (stop_running_clears_handle world_ok state_streaming 7); reflexivity.
Defined.

(** C6. With no stored handle, or with a stored handle whose process has
    exited, the stop button raises nothing and changes nothing but the
    messages on screen, to which it adds that no process is active. *)
Theorem stop_nothing_active w s :
  (stored_proc s = None ∨
   ∃ h rc, stored_proc s = Some h ∧ poll w h = Some rc) →
  main_stop w s
  = Ok tt (set_ui (ui s ++ [st_info "Tidak ada proses ffmpeg aktif."]) s).
Proof.
  intros H. unfold main_stop. cbv [mbind M_bind bind get].
  by rewrite (running_proc_None w s H).
Qed.

Lemma stop_nothing_active_witness :
  (stored_proc (fresh_state fs_uploads) = None ∨
   ∃ h rc, stored_proc (fresh_state fs_uploads) = Some h
           ∧ poll world_ok h = Some rc) ∧
  main_stop world_ok (fresh_state fs_uploads)
  = Ok tt (set_ui [st_info "Tidak ada proses ffmpeg aktif."]
             (fresh_state fs_uploads)).
Proof.
  split; [left; reflexivity|].
  apply (stop_nothing_active world_ok (fresh_state fs_uploads)).
  left; reflexivity.
Defined.

(** ** The start button *)

(** C3, as the script has it.  When the stored child is running, the start
    button raises nothing, spawns nothing and leaves the session, the
    stored handle included, as it was: all it does is show one message.
    That message is the warning that a process is already running when a
    video is chosen, the key is not empty and the encoder is available;
    each of these three checks comes first and has a message of its own. *)
Theorem start_while_running w s h video_path stream_key is_shorts :
  stored_proc s = Some h → poll w h = None →
  main_start w video_path stream_key is_shorts s
  = Ok tt (set_ui (ui s ++ [start_refusal w video_path stream_key]) s).
Proof.
  intros Hs Hp. unfold main_start, start_refusal, ffmpeg_available.
  destruct (opt_str_truthy video_path); [|done].
  destruct (str_truthy stream_key); [|done].
  cbv [mbind M_bind bind mret M_ret ret get]. cbn [negb].
  destruct (ffmpeg_version_ok w); [|done]. cbn [negb].
  by rewrite (running_proc_Some w s h Hs Hp).
Qed.

Lemma start_while_running_witness :
  stored_proc state_streaming = Some 7 ∧
  poll world_ok 7 = None ∧
  main_start world_ok (Some "uploads/video.mp4") "abc123" false state_streaming
  = Ok tt (set_ui [st_warning "Proses ffmpeg sedang berjalan. Hentikan dulu sebelum memulai baru."]
             state_streaming).
Proof.
  split; [reflexivity|]. split; [reflexivity|].
  apply (start_while_running world_ok state_streaming 7
           (Some "uploads/video.mp4") "abc123" false); reflexivity.
Defined.

(** C3 as first stated does not hold: with the child [7] running and an
    empty key, the start button answers with the message about the key, not
    with the warning that a process is running. *)
Lemma start_while_running_other_refusal :
  let r := main_start world_ok (Some "uploads/video.mp4") "" false
             state_streaming in
  stored_proc state_streaming = Some 7 ∧
  poll world_ok 7 = None ∧
  ui (final r) = [st_error "Masukkan Stream Key YouTube."] ∧
  ui (final r)
  ≠ [st_warning "Proses ffmpeg sedang berjalan. Hentikan dulu sebelum memulai baru."].
Proof. cbn. repeat split. discriminate. Qed.

Lemma start_ffmpeg_not_found w s video_path stream_key is_shorts msg :
  Popen w (ffmpeg_cmd video_path stream_key is_shorts)
  = inr (FileNotFoundError msg) →
  start_ffmpeg w video_path stream_key is_shorts (append_log w) s
  = Ok None
      (after_append w
         "Error: ffmpeg tidak ditemukan. Pastikan ffmpeg terinstall dan ada di PATH."
         (set_os_trace
            (os_trace s ++ [EvPopen (ffmpeg_cmd video_path stream_key is_shorts)])
            (after_append w
               ("Menjalankan ffmpeg: " +:+ String.concat " "
                  (ffmpeg_cmd video_path stream_key is_shorts)) s))).
Proof.
  intros HP. unfold start_ffmpeg, os_call.
  remember (ffmpeg_cmd video_path stream_key is_shorts) as cmd.
  cbv [mbind M_bind bind]. rewrite append_log_run.
  run_monad. rewrite HP. cbn. by rewrite append_log_run.
Qed.

Lemma start_ffmpeg_spawns w s video_path stream_key is_shorts :
  let cmd := ffmpeg_cmd video_path stream_key is_shorts in
  os_trace (final (start_ffmpeg w video_path stream_key is_shorts
                     (append_log w) s))
  = os_trace s ++ EvPopen cmd ::
      match Popen w cmd with inl h => [EvThread h] | inr _ => [] end.
Proof.
  intros cmd. unfold start_ffmpeg, os_call. fold cmd. clearbody cmd.
  cbv [mbind M_bind bind]. rewrite append_log_run.
  run_monad. destruct (Popen w cmd) as [h|[]]; cbn; run_append;
    read_fields; by rewrite <- ?app_assoc.
Qed.


(** C1. The sink URL is the fixed prefix followed by the key, and it is the
    last argument, for every input path, key and mode.  For the key
    [abc123] in Standard mode it is
    [rtmp://a.rtmp.youtube.com/live2/abc123], the command is the fixed list
    of 27 arguments, and neither [-vf] nor [scale=720:1280] is among its
    options; in Vertical mode the options hold [-vf] followed by
    [scale=720:1280], just before the output format.  This command is what
    [start_ffmpeg] spawns, before any other call on a process. *)
Theorem start_ffmpeg_command :
  (∀ video_path stream_key is_shorts,
     last (ffmpeg_cmd video_path stream_key is_shorts)
     = Some ("rtmp://a.rtmp.youtube.com/live2/" +:+ stream_key)) ∧
  (∀ video_path,
     last (ffmpeg_cmd video_path "abc123" false)
     = Some "rtmp://a.rtmp.youtube.com/live2/abc123" ∧
     ffmpeg_cmd video_path "abc123" false
     = [ "ffmpeg"; "-re"; "-stream_loop"; "-1"; "-i"; video_path;
         "-c:v"; "libx264"; "-preset"; "veryfast"; "-b:v"; "2500k";
         "-maxrate"; "2500k"; "-bufsize"; "5000k";
         "-g"; "60"; "-keyint_min"; "60"; "-c:a"; "aac"; "-b:a"; "128k";
         "-f"; "flv"; "rtmp://a.rtmp.youtube.com/live2/abc123" ] ∧
     ("scale=720:1280" ∉ options_of (ffmpeg_cmd video_path "abc123" false)) ∧
     ("-vf" ∉ options_of (ffmpeg_cmd video_path "abc123" false))) ∧
  (∀ video_path stream_key,
     ("scale=720:1280" ∈ options_of (ffmpeg_cmd video_path stream_key true)) ∧
     ffmpeg_cmd video_path stream_key true
     = take 24 (ffmpeg_cmd video_path stream_key false)
       ++ ["-vf"; "scale=720:1280"; "-f"; "flv";
           "rtmp://a.rtmp.youtube.com/live2/" +:+ stream_key]) ∧
  (∀ w s video_path stream_key is_shorts,
     let cmd := ffmpeg_cmd video_path stream_key is_shorts in
     os_trace (final (start_ffmpeg w video_path stream_key is_shorts
                        (append_log w) s))
     = os_trace s ++ EvPopen cmd ::
         match Popen w cmd with inl h => [EvThread h] | inr _ => [] end).
Proof.
  split; [|split; [|split]]; [| | |apply start_ffmpeg_spawns].
  - intros. apply last_ffmpeg_cmd.
  - intros v. repeat split.
    + cbn. intros H. repeat (apply elem_of_cons in H as [H|H]; [discriminate|]).
      by apply elem_of_nil in H.
    + cbn. intros H. repeat (apply elem_of_cons in H as [H|H]; [discriminate|]).
      by apply elem_of_nil in H.
  - intros v k. split; [|done].
    cbn. repeat constructor.
Qed.

(** C8, as the script has it.  Take a start request with a video and a key,
    no child running, in a world where spawning the encoder raises
    [FileNotFoundError].  [start_ffmpeg] then returns no handle, and the
    start button raises nothing and leaves the stored handle as it was.
    When the probe [ffmpeg_available] had passed, the log gains three lines,
    the notice of the start, the command, and last the one line that
    explains the missing binary, and the screen shows that the start
    failed.  When the probe fails, the request is turned down before any
    line is logged. *)
Theorem start_binary_missing w s video_path stream_key is_shorts msg :
  str_truthy video_path = true →
  str_truthy stream_key = true →
  running_proc w (stored_proc s) = None →
  Popen w (ffmpeg_cmd video_path stream_key is_shorts)
  = inr (FileNotFoundError msg) →
  (∀ s0, returned (start_ffmpeg w video_path stream_key is_shorts
                     (append_log w) s0) = Some None) ∧
  ∃ s', main_start w (Some video_path) stream_key is_shorts s = Ok tt s' ∧
        ss_ffmpeg_proc (session s') = ss_ffmpeg_proc (session s) ∧
        stored_proc s' = stored_proc s ∧
        if ffmpeg_version_ok w then
          stored_logs s'
          = slice_last 200
              (deref (heap s) (logs s)
               ++ stamped w (ticks s)
                    (missing_binary_lines video_path stream_key is_shorts)) ∧
          os_trace s'
          = os_trace s ++ [EvPopen (ffmpeg_cmd video_path stream_key is_shorts)] ∧
          ui s' = ui s ++ [st_error "Gagal menjalankan ffmpeg. Periksa log."]
        else
          s' = set_ui (ui s ++ [st_error "ffmpeg tidak tersedia. Install ffmpeg dulu."]) s.
Proof.
  intros Hv Hk Hrun HP. split.
  { intros s0. by rewrite (start_ffmpeg_not_found _ _ _ _ _ _ HP). }
  unfold main_start, ffmpeg_available. cbn [opt_str_truthy].
  rewrite Hv, Hk. cbn [negb].
  cbv [mbind M_bind bind mret M_ret ret get].
  destruct (ffmpeg_version_ok w); cbn [negb].
  - rewrite Hrun, append_log_run. cbn [default].
    rewrite (start_ffmpeg_not_found _ _ _ _ _ _ HP).
    eexists; split; [reflexivity|].
    unfold missing_binary_lines. read_fields.
    repeat split. by rewrite <- !app_assoc.
  - eexists; split; [reflexivity|]. done.
Qed.

Lemma start_binary_missing_witness :
  let w := world_ffmpeg_removed in
  let s := fresh_state fs_uploads in
  let msg := "[Errno 2] No such file or directory: 'ffmpeg'" in
  str_truthy "uploads/video.mp4" = true ∧
  str_truthy "abc123" = true ∧
  running_proc w (stored_proc s) = None ∧
  Popen w (ffmpeg_cmd "uploads/video.mp4" "abc123" false)
  = inr (FileNotFoundError msg) ∧
  ∃ s', main_start w (Some "uploads/video.mp4") "abc123" false s = Ok tt s' ∧
        stored_proc s' = None ∧
        length (stored_logs s') = 3 ∧
        last (stored_logs s')
        = Some "[12:00:02] Error: ffmpeg tidak ditemukan. Pastikan ffmpeg terinstall dan ada di PATH." ∧
        ui s' = [st_error "Gagal menjalankan ffmpeg. Periksa log."].
Proof.
  intros w s msg. do 4 (split; [reflexivity|]).
  destruct (start_binary_missing w s "uploads/video.mp4" "abc123" false msg
              eq_refl eq_refl eq_refl eq_refl)
    as (_ & s' & Hrun & _ & Hproc & Hlogs & _ & Hui).
  exists s'. split; [exact Hrun|]. split; [exact Hproc|].
  rewrite Hlogs, Hui. repeat split.
Defined.

(** C8 as first stated does not hold: in a world without the encoder, a
    run of the script with the start button pressed is turned down by the
    probe; the log buffer gains no line at all, and no handle is stored. *)
Lemma start_without_encoder_logs_nothing :
  let r := main world_no_ffmpeg press_start (fresh_state fs_uploads) in
  Popen world_no_ffmpeg
    (ffmpeg_cmd "uploads/video.mp4" "abc123" false)
  = inr (FileNotFoundError "[Errno 2] No such file or directory: 'ffmpeg'") ∧
  returned r = Some tt ∧
  ss_logs (session (final r)) = None ∧
  stored_logs (final r) = [] ∧
  stored_proc (final r) = None ∧
  os_trace (final r) = [] ∧
  st_error "ffmpeg tidak tersedia. Install ffmpeg dulu." ∈ ui (final r).
Proof.
  vm_compute. repeat split. repeat constructor.
Qed.

(** ** The chunked receiver *)

Section ReceiverFacts.
Context {C : Type}.
Implicit Types (cb : option (callback C)) (u : upload_source) (c : C).

Lemma save_loop_clause size dest total cb u written r
    (Heq : read u size = r) :
  save_loop_unfold_clause_1 size dest total cb u (exist _ r Heq) written
  = match r with
    | ([], _) => pass
    | (chunk, u') =>
        on_fst (f_write dest chunk);;
        match cb with
        | Some g =>
            try_except (on_snd (g (written + length chunk) total)) (λ _, pass)
        | None => pass
        end;;
        save_loop size dest total cb u' (written + length chunk)
    end.
Proof. destruct r as [[|b chunk] u']; reflexivity. Qed.

(** One turn of the loop. *)
Lemma save_loop_step size dest total cb u written :
  save_loop size dest total cb u written
  = match read u size with
    | ([], _) => pass
    | (chunk, u') =>
        on_fst (f_write dest chunk);;
        match cb with
        | Some g =>
            try_except (on_snd (g (written + length chunk) total)) (λ _, pass)
        | None => pass
        end;;
        save_loop size dest total cb u' (written + length chunk)
    end.
Proof. rewrite save_loop_equation_1. apply save_loop_clause. Qed.

Lemma remaining_set_pos u k :
  remaining (set_pos (up_pos u + k) u) = drop k (remaining u).
Proof. unfold remaining. cbn. by rewrite drop_drop. Qed.

Lemma set_node_same k n f :
  nodes f !! k = Some n → set_node k n f = f.
Proof.
  intros H. destruct f as [m ro]. unfold set_node. cbn in *.
  by rewrite insert_id.
Qed.

Lemma set_node_twice k n n' f :
  set_node k n (set_node k n' f) = set_node k n f.
Proof. unfold set_node. cbn. by rewrite insert_insert_eq. Qed.

Lemma chunk_count_0 size : 0 < size → chunk_count size 0 = 0.
Proof. intros. unfold chunk_count. apply Nat.div_small. lia. Qed.

Lemma chunk_count_step size n :
  0 < size → 0 < n →
  chunk_count size n = S (chunk_count size (n - size `min` n)).
Proof.
  intros Hs Hn. unfold chunk_count.
  destruct (decide (n ≤ size)) as [Hle|Hgt].
  - replace (n - size `min` n) with 0 by lia.
    rewrite (Nat.div_small (0 + size - 1)) by lia.
    symmetry. apply (Nat.div_unique _ _ _ (n - 1)); lia.
  - replace (n + size - 1) with ((n - size `min` n + size - 1) + 1 * size)
      by lia.
    rewrite Nat.div_add by lia. lia.
Qed.

Lemma progress_points_0 size written :
  0 < size → progress_points size written 0 = [].
Proof. intros. unfold progress_points. by rewrite chunk_count_0. Qed.

Lemma progress_points_step size written n :
  0 < size → 0 < n →
  progress_points size written n
  = (written + size `min` n)
    :: progress_points size (written + size `min` n) (n - size `min` n).
Proof.
  intros Hs Hn. unfold progress_points.
  rewrite (chunk_count_step size n) by done.
  cbn [seq fmap list_fmap]. f_equal; [f_equal; lia|].
  rewrite <- fmap_S_seq, <- list_fmap_compose.
  apply list_fmap_ext. intros _ k _. cbn. lia.
Qed.

(** The loop from any cursor: it appends what is left to the file and
    calls the callback after each chunk. *)
Lemma save_loop_run size dest total cb (Hsize : 0 < size) n :
  ∀ u written f c content,
    length (remaining u) ≤ n →
    nodes f !! path_str dest = Some (File content) →
    save_loop size dest total cb u written (f, c)
    = Ok tt (set_node (path_str dest) (File (content ++ remaining u)) f,
             foldl (call_quietly cb total) c
               (progress_points size written (length (remaining u)))).
Proof.
  induction n as [|n IH]; intros u written f c content Hlen Hfile;
    rewrite save_loop_step; unfold read; fold (remaining u).
  - destruct (remaining u) as [|b r]; [|cbn in Hlen; lia].
    rewrite take_nil, app_nil_r, progress_points_0 by done.
    by rewrite set_node_same.
  - destruct (remaining u) as [|b r] eqn:Hrem.
    { rewrite take_nil, app_nil_r, progress_points_0 by done.
      by rewrite set_node_same. }
    destruct size as [|size']; [lia|].
    change (take (S size') (b :: r)) with (b :: take size' r).
    cbv iota beta.
    change (b :: take size' r) with (take (S size') (b :: r)).
    set (chunk := take (S size') (b :: r)).
    assert (Hchunk : length chunk = S size' `min` length (b :: r))
      by (unfold chunk; rewrite length_take; lia).
    assert (Hrem' : remaining (set_pos (up_pos u + length chunk) u)
                    = drop (S size') (b :: r)).
    { rewrite remaining_set_pos, Hrem, Hchunk.
      destruct (decide (length (b :: r) ≤ S size')).
      - rewrite !drop_ge; [done|lia..].
      - f_equal. lia. }
    assert (Hwrite : on_fst (T:=C) (f_write dest chunk) (f, c)
              = Ok tt (set_node (path_str dest) (File (content ++ chunk)) f, c)).
    { unfold f_write. run_monad. by rewrite Hfile. }
    rewrite (bind_ok _ _ _ _ _ Hwrite).
    assert (Hcall :
      match cb with
      | Some g =>
          try_except (on_snd (g (written + length chunk) total)) (λ _, pass)
      | None => pass
      end (set_node (path_str dest) (File (content ++ chunk)) f, c)
      = Ok tt (set_node (path_str dest) (File (content ++ chunk)) f,
               call_quietly cb total c (written + length chunk))).
    { destruct cb as [g|]; [|done]. unfold call_quietly. run_monad.
      by destruct (g _ total c) as [[] ?|? ?]. }
    rewrite (bind_ok _ _ _ _ _ Hcall).
    rewrite (IH _ _ _ _ (content ++ chunk)).
    + rewrite Hrem', set_node_twice, <- app_assoc.
      rewrite (progress_points_step (S size') written (length (b :: r)))
        by (cbn; lia).
      rewrite <- Hchunk, length_drop. cbn [foldl].
      unfold chunk at 1. rewrite take_drop.
      by replace (length (b :: r) - S size')
        with (length (b :: r) - length chunk) by lia.
    + rewrite Hrem', length_drop. cbn in Hlen |- *. lia.
    + unfold set_node. cbn. by rewrite lookup_insert_eq.
Qed.

Lemma chunk_size_pos : 0 < chunk_size.
Proof. unfold chunk_size. lia. Qed.

Lemma open_w_run dest f :
  is_dir (p_dir dest) f = true →
  nodes f !! path_str dest ≠ Some Dir →
  read_only f = false →
  open_w dest f = Ok tt (set_node (path_str dest) (File []) f).
Proof.
  intros Hd Hn Hro. unfold open_w. run_monad. unfold is_dir in Hd.
  destruct (nodes f !! p_dir dest) as [[|c]|]; [|done..].
  rewrite Hro. by destruct (nodes f !! path_str dest) as [[]|].
Qed.

Lemma save_uploaded_file_run u dest cb f c :
  is_dir (p_dir dest) f = true →
  nodes f !! path_str dest ≠ Some Dir →
  read_only f = false →
  save_uploaded_file u dest cb (f, c)
  = Ok dest
      (set_node (path_str dest) (File (readable u)) f,
       foldl (call_quietly cb (total_of u)) c
         (progress_points chunk_size 0 (length (readable u)))).
Proof.
  intros Hd Hn Hro. unfold save_uploaded_file.
  set (u1 := match seek0 u with inl u1 => u1 | inr _ => u end).
  assert (Hrem : remaining u1 = readable u).
  { unfold u1, seek0, readable, remaining. by destruct (up_seekable u). }
  assert (Htotal : total_of u1 = total_of u).
  { unfold u1, seek0. by destruct (up_seekable u). }
  rewrite Htotal.
  assert (Hopen : on_fst (T:=C) (open_w dest) (f, c)
                  = Ok tt (set_node (path_str dest) (File []) f, c)).
  { unfold on_fst. cbn [fst snd]. by rewrite open_w_run. }
  rewrite (bind_ok _ _ _ _ _ Hopen).
  assert (Hfile : nodes (set_node (path_str dest) (File []) f)
                     !! path_str dest = Some (File [])).
  { unfold set_node. cbn. apply lookup_insert_eq. }
  rewrite (bind_ok _ _ _ _ _
             (save_loop_run chunk_size dest (total_of u) cb chunk_size_pos
                (length (remaining u1)) u1 0 _ c [] (Nat.le_refl _) Hfile)).
  by rewrite set_node_twice, Hrem.
Qed.

End ReceiverFacts.






(** The loop on chunks of two bytes, with a callback that fails each time:
    three chunks, three calls, the whole file. *)
Example save_loop_three_chunks :
  let f := final (open_w dest_video fs_uploads) in
  let r := save_loop 2 dest_video (Some 5) (Some cb_failing)
             (set_pos 0 upload_five) 0 (f, []) in
  returned r = Some tt ∧
  file_content dest_video (final r).1 = Some [x00; x00; x00; x18; x66]%byte ∧
  (final r).2 = [(2, Some 5); (4, Some 5); (5, Some 5)] ∧
  progress_points 2 0 5 = [2; 4; 5].
Proof. vm_compute. done. Qed.

(** ** The settings file at start-up *)

Lemma mkdir_exist_ok_run d f :
  mkdir_exist_ok d f
  = match nodes f !! d with
    | Some Dir => Ok tt f
    | Some (File _) => Raise (OSError ("[Errno 17] File exists: " +:+ quoted d)) f
    | None =>
        if read_only f
        then Raise (OSError ("[Errno 30] Read-only file system: " +:+ quoted d)) f
        else Ok tt (set_node d Dir f)
    end.
Proof.
  unfold mkdir_exist_ok. run_monad.
  destruct (nodes f !! d) as [[]|]; [done..|]. by destruct (read_only f).
Qed.

Lemma write_text_run p text f :
  is_dir (p_dir p) f = true →
  nodes f !! path_str p ≠ Some Dir →
  read_only f = false →
  write_text p text f
  = Ok tt (set_node (path_str p) (File (String.list_byte_of_string text)) f).
Proof.
  intros Hd Hn Hro. unfold write_text.
  rewrite (bind_ok _ _ _ _ _ (open_w_run p f Hd Hn Hro)).
  unfold f_write, modify.
  replace (nodes (set_node (path_str p) (File []) f) !! path_str p)
    with (Some (File [])) by (symmetry; apply lookup_insert_eq).
  by rewrite set_node_twice.
Qed.

Lemma write_text_refused p text f :
  is_dir (p_dir p) f = true →
  nodes f !! path_str p = Some Dir ∨ read_only f = true →
  ∃ e, write_text p text f = Raise e f.
Proof.
  intros Hd Hcase. unfold write_text, open_w.
  cbv [mbind M_bind bind get]. unfold is_dir in Hd.
  destruct (nodes f !! p_dir p) as [[|dc]|]; [|done..].
  destruct (nodes f !! path_str p) as [[|c]|] eqn:Hn; [by eexists|..];
    (destruct Hcase as [?|Hro]; [done|]); rewrite Hro; by eexists.
Qed.

Lemma print_run line (f : filesystem) (out : list string) :
  print line (f, out) = Ok tt (f, out ++ [line]).
Proof. reflexivity. Qed.

Lemma config_keys_differ : CONFIG_DIR ≠ path_str CONFIG_PATH.
Proof. done. Qed.

Lemma startup_config_absent f out :
  path_exists CONFIG_PATH f = false →
  startup_config (f, out)
  = try_except
      (on_fst (mkdir_exist_ok CONFIG_DIR);;
       on_fst (write_text CONFIG_PATH config_text);;
       print ("Created Streamlit config at: " +:+ path_str CONFIG_PATH))
      (λ e, print ("Gagal membuat .streamlit/config.toml: " +:+ exn_str e))
      (f, out).
Proof.
  intros Hex. unfold startup_config. cbv [mbind M_bind bind get].
  cbn [fst]. by rewrite Hex.
Qed.

Lemma startup_config_present f out :
  path_exists CONFIG_PATH f = true → startup_config (f, out) = Ok tt (f, out).
Proof.
  intros Hex. unfold startup_config. cbv [mbind M_bind bind get].
  cbn [fst]. by rewrite Hex.
Qed.

(** C9, as the script has it.  Start-up raises nothing.  When the settings
    file exists, it changes nothing.  When the file is absent and the
    working directory can take it, start-up makes the directory if need be
    and writes the file with the three fixed lines, and a second start-up
    then changes nothing.  When the file is absent and cannot be written,
    start-up prints why and goes on without it. *)
Theorem startup_config_written_if_absent (f : filesystem) (out : list string) :
  ∃ f' out',
    startup_config (f, out) = Ok tt (f', out') ∧
    if path_exists CONFIG_PATH f then
      f' = f ∧ out' = out
    else if config_writable f then
      file_content CONFIG_PATH f'
      = Some (String.list_byte_of_string config_text) ∧
      nodes f'
      = <[path_str CONFIG_PATH := File (String.list_byte_of_string config_text)]>
          (<[CONFIG_DIR := Dir]> (nodes f)) ∧
      out' = out ++ ["Created Streamlit config at: .streamlit/config.toml"] ∧
      startup_config (f', out') = Ok tt (f', out')
    else
      file_content CONFIG_PATH f' = file_content CONFIG_PATH f ∧
      ∃ e, out' = out ++ ["Gagal membuat .streamlit/config.toml: " +:+ exn_str e].
Proof.
  destruct (path_exists CONFIG_PATH f) eqn:Hex.
  { eexists _, _. split; [by apply startup_config_present|done]. }
  rewrite (startup_config_absent f out Hex).
  pose proof config_keys_differ as Hkeys.
  unfold path_exists, is_dir in Hex. unfold config_writable, file_content.
  change (p_dir CONFIG_PATH) with CONFIG_DIR in Hex.
  set (bytes := String.list_byte_of_string config_text).
  assert (Hdone : ∀ g, nodes g !! CONFIG_DIR = Some Dir →
            nodes g !! path_str CONFIG_PATH = Some (File bytes) →
            ∀ o, startup_config (g, o) = Ok tt (g, o)).
  { intros g Hgd Hgf o. apply startup_config_present.
    unfold path_exists, is_dir. change (p_dir CONFIG_PATH) with CONFIG_DIR.
    by rewrite Hgd, Hgf. }
  unfold try_except. cbv [mbind M_bind bind on_fst]. cbn [fst snd].
  rewrite mkdir_exist_ok_run.
  destruct (nodes f !! CONFIG_DIR) as [[|dc]|] eqn:Hdir; cbn [fst snd].
  - (* the directory is there *)
    cbn in Hex.
    destruct (nodes f !! path_str CONFIG_PATH) as [n|] eqn:Hfile; [done|].
    destruct (read_only f) eqn:Hro; cbn [negb andb].
    + destruct (write_text_refused CONFIG_PATH config_text f) as [e He];
        [by unfold is_dir; change (p_dir CONFIG_PATH) with CONFIG_DIR;
            rewrite Hdir | by right |].
      rewrite He, print_run. eexists _, _. split; [reflexivity|].
      rewrite Hfile. split; [done|]. by exists e.
    + rewrite write_text_run;
        [|by unfold is_dir; change (p_dir CONFIG_PATH) with CONFIG_DIR;
             rewrite Hdir | by rewrite Hfile | done].
      rewrite print_run. eexists _, _. split; [reflexivity|].
      unfold set_node; cbn [nodes]. rewrite lookup_insert_eq.
      split; [done|]. split; [by rewrite (insert_id (nodes f) CONFIG_DIR)|].
      split; [done|]. apply Hdone; cbn [nodes].
      * by rewrite lookup_insert_ne.
      * by rewrite lookup_insert_eq.
  - (* a regular file is in the way *)
    rewrite print_run, andb_false_r. cbn [andb].
    eexists _, _. split; [reflexivity|]. split; [done|]. by eexists.
  - (* the directory is to be made *)
    destruct (read_only f) eqn:Hro; cbn [negb andb fst snd].
    { rewrite print_run. eexists _, _. split; [reflexivity|].
      split; [done|]. by eexists. }
    assert (Hd1 : is_dir (p_dir CONFIG_PATH) (set_node CONFIG_DIR Dir f) = true).
    { unfold is_dir, set_node. cbn [nodes].
      change (p_dir CONFIG_PATH) with CONFIG_DIR. by rewrite lookup_insert_eq. }
    assert (Hf1 : nodes (set_node CONFIG_DIR Dir f) !! path_str CONFIG_PATH
                  = nodes f !! path_str CONFIG_PATH).
    { unfold set_node. cbn [nodes]. by rewrite lookup_insert_ne. }
    destruct (nodes f !! path_str CONFIG_PATH) as [[|fc]|] eqn:Hfile.
    + destruct (write_text_refused CONFIG_PATH config_text
                  (set_node CONFIG_DIR Dir f) Hd1) as [e He];
        [by left; rewrite Hf1|].
      rewrite He, print_run. eexists _, _. split; [reflexivity|].
      rewrite Hf1. split; [done|]. by exists e.
    + rewrite write_text_run; [|done|by rewrite Hf1|done].
      rewrite print_run. eexists _, _. split; [reflexivity|].
      unfold set_node; cbn [nodes]. rewrite lookup_insert_eq.
      split; [done|]. split; [done|]. split; [done|].
      apply Hdone; cbn [nodes].
      * rewrite lookup_insert_ne by done. by rewrite lookup_insert_eq.
      * by rewrite lookup_insert_eq.
    + rewrite write_text_run; [|done|by rewrite Hf1|done].
      rewrite print_run. eexists _, _. split; [reflexivity|].
      unfold set_node; cbn [nodes]. rewrite lookup_insert_eq.
      split; [done|]. split; [done|]. split; [done|].
      apply Hdone; cbn [nodes].
      * rewrite lookup_insert_ne by done. by rewrite lookup_insert_eq.
      * by rewrite lookup_insert_eq.
Qed.

Lemma startup_config_written_if_absent_witness :
  ∃ f' out',
    startup_config (fs_uploads, []) = Ok tt (f', out') ∧
    file_content CONFIG_PATH f'
    = Some (String.list_byte_of_string config_text) ∧
    out' = ["Created Streamlit config at: .streamlit/config.toml"] ∧
    startup_config (f', out') = Ok tt (f', out').
Proof.
  destruct (startup_config_written_if_absent fs_uploads [])
    as (f' & out' & Hrun & Hcase).
  exists f', out'. split; [exact Hrun|].
  change (path_exists CONFIG_PATH fs_uploads) with false in Hcase.
  change (config_writable fs_uploads) with true in Hcase.
  destruct Hcase as (Hfile & _ & Hout & Hagain). done.
Defined.

(** C9 as first stated does not hold: on a read-only file system, or where
    [.streamlit] is a regular file, the settings file is absent before
    start-up and absent after it; start-up prints the reason and goes on. *)
Lemma startup_config_not_written :
  let r := startup_config (fs_read_only, []) in
  let r' := startup_config (fs_blocked, []) in
  path_exists CONFIG_PATH fs_read_only = false ∧
  returned r = Some tt ∧
  (final r).1 = fs_read_only ∧
  path_exists CONFIG_PATH (final r).1 = false ∧
  (final r).2
  = ["Gagal membuat .streamlit/config.toml: "
     +:+ "[Errno 30] Read-only file system: '.streamlit'"] ∧
  path_exists CONFIG_PATH fs_blocked = false ∧
  returned r' = Some tt ∧
  (final r').1 = fs_blocked ∧
  path_exists CONFIG_PATH (final r').1 = false ∧
  (final r').2
  = ["Gagal membuat .streamlit/config.toml: "
     +:+ "[Errno 17] File exists: '.streamlit'"].
Proof. vm_compute. done. Qed.

(** ** The name of an upload *)

Lemma string_length_app (a b : string) :
  String.length (a +:+ b) = String.length a + String.length b.
Proof.
  induction a as [|x a IH]; [done|].
  change (S (String.length (a +:+ b)) = S (String.length a + String.length b)).
  by rewrite IH.
Qed.

Lemma string_app_empty (a : string) : a +:+ "" = a.
Proof.
  induction a as [|x a IH]; [done|].
  change (String x (a +:+ "") = String x a). by rewrite IH.
Qed.

Lemma substring_halves (s : string) (i : nat) :
  i ≤ String.length s →
  String.substring 0 i s +:+ String.substring i (String.length s - i) s = s.
Proof.
  revert i. induction s as [|x s IH]; intros [|i] Hi; cbn in Hi; try lia.
  - done.
  - change (String x (String.substring 0 (String.length s) s) = String x s).
    f_equal. clear. induction s as [|y s IH]; [done|].
    change (String y (String.substring 0 (String.length s) s) = String y s).
    by rewrite IH.
  - change (String x (String.substring 0 i s
                      +:+ String.substring i (String.length s - i) s)
            = String x s).
    f_equal. apply IH. lia.
Qed.

(** The two halves of a name make the name. *)
Lemma stem_suffix (name : string) : stem name +:+ suffix name = name.
Proof.
  unfold stem, suffix. destruct (split_at_dot name) as [i|] eqn:Hsplit.
  - apply substring_halves. unfold split_at_dot in Hsplit.
    destruct (rfind "." name) as [j|]; [|done].
    destruct ((0 <? j) && (j <? String.length name - 1)) eqn:Hj; [|done].
    injection Hsplit as ->.
    apply andb_true_iff in Hj as [_ Hj]. apply Nat.ltb_lt in Hj. lia.
  - apply string_app_empty.
Qed.

(** The stamped name is never the name it comes from. *)
Lemma stamped_name_differs (name : string) (stamp : Z) :
  stem name +:+ "_" +:+ str_of_Z stamp +:+ suffix name ≠ name.
Proof.
  intros Heq. apply (f_equal String.length) in Heq.
  rewrite <- (stem_suffix name) in Heq at 3.
  rewrite !string_length_app in Heq. cbn in Heq. lia.
Qed.

(** What holds of C7: when the name of an upload is taken, the destination
    is in [uploads] under the stem, an underscore, the time in seconds and
    the suffix, which is another name than the one taken. *)
Lemma upload_dest_renamed w s name :
  path_exists {| p_dir := UPLOAD_DIR; p_name := name |} (fs s) = true →
  ∃ p, upload_dest w name s = Ok p (set_ticks (S (ticks s)) s) ∧
       p_dir p = UPLOAD_DIR ∧
       p_name p = stem name +:+ "_" +:+ str_of_Z (time_time w (ticks s))
                  +:+ suffix name ∧
       p_name p ≠ name.
Proof.
  intros Hex. unfold upload_dest, clock. run_monad. rewrite Hex.
  eexists. split; [reflexivity|]. cbn. repeat split.
  apply stamped_name_differs.
Qed.

(** C7 fails on the script when the stamped name is taken too.  The
    directory holds [video.mp4] and [video_1700000000.mp4]; an upload named
    [video.mp4] arrives at the second 1700000000.  It is written over
    [video_1700000000.mp4], whose two bytes are lost; [video.mp4] is left
    as it was. *)
Theorem upload_overwrites_stamped_file :
  let s := fresh_state fs_collision in
  let r := main_upload world_ok (Some upload_five) s in
  file_content dest_video (fs s) = Some [x01; x02; x03]%byte ∧
  file_content dest_stamped (fs s) = Some [x0a; x0b]%byte ∧
  returned r = Some (Some "uploads/video_1700000000.mp4") ∧
  file_content dest_stamped (fs (final r)) = Some (up_data upload_five) ∧
  file_content dest_stamped (fs (final r)) ≠ file_content dest_stamped (fs s) ∧
  file_content dest_video (fs (final r)) = Some [x01; x02; x03]%byte.
Proof. vm_compute. repeat split. discriminate. Qed.

(** * Further properties *)

(** ** Starting a stream *)

Lemma bind_Ok_inv {S A B} (m : M S A) (k : A → M S B) (s s' : S) (b : B) :
  (m ≫= k) s = Ok b s' → ∃ a s1, m s = Ok a s1 ∧ k a s1 = Ok b s'.
Proof. rewrite bind_run. destruct (m s) as [a s1|e s1]; [eauto|done]. Qed.

Lemma start_ffmpeg_started w s video_path stream_key is_shorts h :
  Popen w (ffmpeg_cmd video_path stream_key is_shorts) = inl h →
  ∃ s', start_ffmpeg w video_path stream_key is_shorts (append_log w) s
        = Ok (Some h) s' ∧
        os_trace s'
        = os_trace s ++ [EvPopen (ffmpeg_cmd video_path stream_key is_shorts);
                         EvThread h] ∧
        stored_logs s'
        = slice_last 200
            (deref (heap s) (logs s)
             ++ stamped w (ticks s)
                  [command_echo video_path stream_key is_shorts]) ∧
        session s' = set_ss_logs (ss_logs (session s')) (session s) ∧
        ui s' = ui s ∧ fs s' = fs s.
Proof.
  intros HP. unfold start_ffmpeg, os_call, command_echo.
  remember (ffmpeg_cmd video_path stream_key is_shorts) as cmd.
  cbv [mbind M_bind bind]. rewrite append_log_run.
  run_monad. rewrite HP. cbn.
  eexists. split; [reflexivity|]. read_fields.
  rewrite <- app_assoc. repeat split.
Qed.

Lemma start_ffmpeg_raises w s video_path stream_key is_shorts e :
  Popen w (ffmpeg_cmd video_path stream_key is_shorts) = inr e →
  is_FileNotFoundError e = false →
  ∃ s', start_ffmpeg w video_path stream_key is_shorts (append_log w) s
        = Raise e s' ∧
        os_trace s'
        = os_trace s ++ [EvPopen (ffmpeg_cmd video_path stream_key is_shorts)] ∧
        stored_logs s'
        = slice_last 200
            (deref (heap s) (logs s)
             ++ stamped w (ticks s)
                  [command_echo video_path stream_key is_shorts]) ∧
        session s' = set_ss_logs (ss_logs (session s')) (session s) ∧
        ui s' = ui s ∧ fs s' = fs s.
Proof.
  intros HP He. unfold start_ffmpeg, os_call, command_echo.
  remember (ffmpeg_cmd video_path stream_key is_shorts) as cmd.
  cbv [mbind M_bind bind]. rewrite append_log_run.
  run_monad. rewrite HP. cbn. rewrite He.
  eexists. split; [reflexivity|]. read_fields. repeat split.
Qed.

(** X1. A request with a video and a key, with the encoder answering the
    probe, no stored child running (none stored, or one that has exited)
    and a spawn that gives the child [h]: the start button raises nothing,
    stores [h] in place of what was stored, has spawned the command and
    started the reader thread and nothing else, has logged the notice and
    the command, and shows that the stream has started. *)
Theorem start_spawns_and_stores w s video_path stream_key is_shorts h :
  str_truthy video_path = true →
  str_truthy stream_key = true →
  ffmpeg_version_ok w = true →
  running_proc w (stored_proc s) = None →
  Popen w (ffmpeg_cmd video_path stream_key is_shorts) = inl h →
  ∃ s', main_start w (Some video_path) stream_key is_shorts s = Ok tt s' ∧
        ss_ffmpeg_proc (session s') = Some (Some h) ∧
        os_trace s'
        = os_trace s ++ [EvPopen (ffmpeg_cmd video_path stream_key is_shorts);
                         EvThread h] ∧
        stored_logs s'
        = slice_last 200
            (deref (heap s) (logs s)
             ++ stamped w (ticks s)
                  (start_lines video_path stream_key is_shorts)) ∧
        ui s' = ui s ++ [st_success "Streaming dimulai."] ∧
        fs s' = fs s.
Proof.
  intros Hv Hk Hprobe Hrun HP.
  unfold main_start, ffmpeg_available. cbn [opt_str_truthy].
  rewrite Hv, Hk. cbn [negb].
  cbv [mbind M_bind bind mret M_ret ret get]. rewrite Hprobe. cbn [negb].
  change (default "" (Some video_path)) with video_path.
  rewrite Hrun, append_log_run.
  match goal with
  | |- context [start_ffmpeg w _ _ _ _ ?st] =>
      destruct (start_ffmpeg_started w st video_path stream_key is_shorts h HP)
        as (s1 & -> & Htrace & Hlogs & _ & Hui & Hfs)
  end.
  unfold set_stored_proc, st_show. run_monad.
  eexists. split; [reflexivity|]. unfold start_lines. read_fields.
  rewrite Htrace, Hlogs, Hui, Hfs. read_fields.
  rewrite <- app_assoc. repeat split.
Qed.

Lemma start_spawns_and_stores_witness :
  let w := world_ok in
  let s := fresh_state fs_uploads in
  str_truthy "uploads/video.mp4" = true ∧
  str_truthy "abc123" = true ∧
  ffmpeg_version_ok w = true ∧
  running_proc w (stored_proc s) = None ∧
  Popen w (ffmpeg_cmd "uploads/video.mp4" "abc123" false) = inl 7 ∧
  ∃ s', main_start w (Some "uploads/video.mp4") "abc123" false s = Ok tt s' ∧
        ss_ffmpeg_proc (session s') = Some (Some 7) ∧
        length (os_trace s') = 2 ∧
        length (stored_logs s') = 2 ∧
        ui s' = [st_success "Streaming dimulai."].
Proof.
  intros w s. do 5 (split; [reflexivity|]).
  destruct (start_spawns_and_stores w s "uploads/video.mp4" "abc123" false 7
              eq_refl eq_refl eq_refl eq_refl eq_refl)
    as (s' & Hrun & Hproc & Htrace & Hlogs & Hui & _).
  exists s'. split; [exact Hrun|]. split; [exact Hproc|].
  rewrite Htrace, Hlogs, Hui. repeat split.
Defined.

(** X2. Under the same conditions, when the spawn raises something other
    than [FileNotFoundError], nothing catches it: the start button raises
    that exception.  The notice and the command are logged by then, the
    spawn has been tried, no thread is started, no message is shown and the
    stored handle is what it was. *)
Theorem start_spawn_error_escapes w s video_path stream_key is_shorts e :
  str_truthy video_path = true →
  str_truthy stream_key = true →
  ffmpeg_version_ok w = true →
  running_proc w (stored_proc s) = None →
  Popen w (ffmpeg_cmd video_path stream_key is_shorts) = inr e →
  is_FileNotFoundError e = false →
  ∃ s', main_start w (Some video_path) stream_key is_shorts s = Raise e s' ∧
        ss_ffmpeg_proc (session s') = ss_ffmpeg_proc (session s) ∧
        os_trace s'
        = os_trace s ++ [EvPopen (ffmpeg_cmd video_path stream_key is_shorts)] ∧
        stored_logs s'
        = slice_last 200
            (deref (heap s) (logs s)
             ++ stamped w (ticks s)
                  (start_lines video_path stream_key is_shorts)) ∧
        ui s' = ui s.
Proof.
  intros Hv Hk Hprobe Hrun HP He.
  unfold main_start, ffmpeg_available. cbn [opt_str_truthy].
  rewrite Hv, Hk. cbn [negb].
  cbv [mbind M_bind bind mret M_ret ret get]. rewrite Hprobe. cbn [negb].
  change (default "" (Some video_path)) with video_path.
  rewrite Hrun, append_log_run.
  match goal with
  | |- context [start_ffmpeg w _ _ _ _ ?st] =>
      destruct (start_ffmpeg_raises w st video_path stream_key is_shorts e
                  HP He)
        as (s1 & -> & Htrace & Hlogs & Hsession & Hui & _)
  end.
  eexists. split; [reflexivity|]. unfold start_lines.
  rewrite Htrace, Hlogs, Hui, Hsession. read_fields.
  rewrite <- app_assoc. repeat split.
Qed.

Lemma start_spawn_error_escapes_witness :
  let w := world_no_permission in
  let s := fresh_state fs_uploads in
  let e := OSError "[Errno 13] Permission denied: 'ffmpeg'" in
  str_truthy "uploads/video.mp4" = true ∧
  str_truthy "abc123" = true ∧
  ffmpeg_version_ok w = true ∧
  running_proc w (stored_proc s) = None ∧
  Popen w (ffmpeg_cmd "uploads/video.mp4" "abc123" false) = inr e ∧
  is_FileNotFoundError e = false ∧
  ∃ s', main_start w (Some "uploads/video.mp4") "abc123" false s = Raise e s' ∧
        ss_ffmpeg_proc (session s') = None ∧
        length (os_trace s') = 1 ∧
        length (stored_logs s') = 2 ∧
        ui s' = [].
Proof.
  intros w s e. do 6 (split; [reflexivity|]).
  destruct (start_spawn_error_escapes w s "uploads/video.mp4" "abc123" false e
              eq_refl eq_refl eq_refl eq_refl eq_refl eq_refl)
    as (s' & Hrun & Hproc & Htrace & Hlogs & Hui).
  exists s'. split; [exact Hrun|]. split; [exact Hproc|].
  rewrite Htrace, Hlogs, Hui. repeat split.
Defined.

(** X3. A request without a video, with an empty key, or made while the
    encoder does not answer the probe is turned down whatever the session
    holds, child running or not: the start button raises nothing, shows one
    error message, and leaves the session, the log, the file system and the
    processes as they were. *)
Theorem start_request_turned_down w s video_path stream_key is_shorts :
  request_ok w video_path stream_key = false →
  ∃ text, start_refusal w video_path stream_key = st_error text ∧
          main_start w video_path stream_key is_shorts s
          = Ok tt (set_ui (ui s ++ [st_error text]) s).
Proof.
  unfold request_ok, main_start, start_refusal, ffmpeg_available.
  destruct (opt_str_truthy video_path); [|by eexists].
  destruct (str_truthy stream_key); [|by eexists].
  cbv [mbind M_bind bind mret M_ret ret]. cbn [andb negb].
  intros ->. by eexists.
Qed.

Lemma start_request_turned_down_witness :
  request_ok world_ok None "abc123" = false ∧
  ∃ text, start_refusal world_ok None "abc123" = st_error text ∧
          main_start world_ok None "abc123" true state_streaming
          = Ok tt (set_ui (ui state_streaming ++ [st_error text])
                     state_streaming).
Proof.
  split; [reflexivity|].
  apply (start_request_turned_down world_ok state_streaming None "abc123" true).
  reflexivity.
Defined.

(** ** Stopping a stream *)

(** The stop button in every case. *)
Lemma main_stop_run w s :
  ∃ s', main_stop w s = Ok tt s' ∧
        stored_proc s'
        = match running_proc w (stored_proc s) with
          | Some _ => None
          | None => stored_proc s
          end ∧
        os_trace s'
        = os_trace s ++ match running_proc w (stored_proc s) with
                        | Some h => stop_calls w h
                        | None => []
                        end ∧
        fs s' = fs s.
Proof.
  unfold main_stop, stop_calls. cbv [mbind M_bind bind get].
  destruct (running_proc w (stored_proc s)) as [h|].
  - rewrite append_log_run. unfold os_call, answer, set_stored_proc.
    destruct (terminate w h) as [e|]; [|destruct (wait w h 5) as [e|];
      [destruct (kill w h) as [e'|]|]];
      run_monad; run_append;
      (eexists; split; [reflexivity|]);
      unfold stored_proc; read_fields;
      rewrite <- ?app_assoc; done.
  - eexists. split; [reflexivity|]. cbn. by rewrite app_nil_r.
Qed.

(** X4. After the stop button has dealt with a running child, pressing it
    again, in whatever state the world is by then, only reports that no
    process is active: no signal is sent a second time and nothing else
    changes. *)
Theorem stop_twice w s h :
  stored_proc s = Some h → poll w h = None →
  ∃ s1, main_stop w s = Ok tt s1 ∧
        ∀ w', main_stop w' s1
              = Ok tt (set_ui (ui s1 ++ [st_info "Tidak ada proses ffmpeg aktif."])
                         s1).
Proof.
  intros Hs Hp. destruct (main_stop_run w s) as (s1 & Hrun & Hproc & _).
  rewrite (running_proc_Some w s h Hs Hp) in Hproc.
  exists s1. split; [exact Hrun|]. intros w'.
  unfold main_stop. cbv [mbind M_bind bind get]. by rewrite Hproc.
Qed.

Lemma stop_twice_witness :
  stored_proc state_streaming = Some 7 ∧
  poll world_ok 7 = None ∧
  ∃ s1, main_stop world_ok state_streaming = Ok tt s1 ∧
        ∀ w', main_stop w' s1
              = Ok tt (set_ui (ui s1 ++ [st_info "Tidak ada proses ffmpeg aktif."])
                         s1).
Proof.
  split; [reflexivity|]. split; [reflexivity|].
  apply (stop_twice world_ok state_streaming 7); reflexivity.
Defined.

(** ** The reader of the child's output *)

Lemma append_log_off_script_run w no_session l msg s :
  append_log_off_script w no_session l msg s
  = Raise no_session (after_relay w l msg s).
Proof. reflexivity. Qed.

Lemma after_relays_frame w l msgs s :
  deref (heap (after_relays w l msgs s)) l
  = deref (heap s) l ++ stamped w (ticks s) msgs ∧
  (∀ l', l' ≠ l → heap (after_relays w l msgs s) !! l' = heap s !! l') ∧
  session (after_relays w l msgs s) = session s ∧
  log_box (after_relays w l msgs s) = log_box s ∧
  ui (after_relays w l msgs s) = ui s ∧
  os_trace (after_relays w l msgs s) = os_trace s.
Proof.
  revert s. induction msgs as [|msg msgs IH]; intros s.
  - cbn. by rewrite app_nil_r.
  - change (after_relays w l (msg :: msgs) s)
      with (after_relays w l msgs (after_relay w l msg s)).
    destruct (IH (after_relay w l msg s)) as (-> & Hother & -> & -> & -> & ->).
    cbn. rewrite deref_insert_eq, <- app_assoc. split; [done|].
    split; [|done]. intros l' Hne. rewrite Hother by done.
    unfold after_relay. cbn [heap set_heap]. by rewrite lookup_insert_ne.
Qed.

(** Once the writer raises, the reader goes to its [except] clause and then
    to its [finally] clause, whose calls of the writer raise as well. *)
Lemma reader_thread_off_script w no_session strip p_stdout l s :
  reader_thread strip p_stdout (append_log_off_script w no_session l) s
  = Raise no_session
      (after_relays w l (relayed_lines strip no_session (default [] p_stdout)) s).
Proof.
  unfold reader_thread, try_finally, try_except, relayed_lines.
  destruct p_stdout as [[|[line|e] reads]|]; cbv [default id];
    cbn [read_lines]; [done| |done..].
  destruct (str_truthy line); [|done].
  cbv [mbind M_bind bind]. by rewrite !append_log_off_script_run.
Qed.

Local Transparent stored_logs.

Lemma stored_logs_elsewhere (s s' : state) (l : loc) :
  session s' = session s →
  (∀ l', l' ≠ l → heap s' !! l' = heap s !! l') →
  ss_logs (session s) ≠ Some l →
  stored_logs s' = stored_logs s.
Proof.
  intros Hsession Hother Hne. unfold stored_logs, deref. rewrite Hsession.
  destruct (ss_logs (session s)) as [l0|]; [|done].
  rewrite Hother; [done|]. by intros ->.
Qed.

Local Opaque stored_logs.

(** X5. The reader as the script starts it: on a thread of its own, with
    [append_log] as its writer.  Every call of the writer adds its line to
    the list of the closure and then raises, so the thread ends with that
    exception after at most three lines: the first line of the stream,
    stripped, if the stream gives one, and a line about the exception of
    the writer; or a line about the exception of [readline]; and in every
    case, also when the child has no output stream, the line that the
    process has ended.  No other list changes; the session, the log panel
    and the messages are as they were, and no call is made on a process.
    The stored buffer is as it was, its list not being the closure's. *)
Theorem reader_thread_logs w no_session strip p_stdout l s :
  let lines := relayed_lines strip no_session (default [] p_stdout) in
  ∃ s', reader_thread strip p_stdout (append_log_off_script w no_session l) s
        = Raise no_session s' ∧
        length lines ≤ 3 ∧
        deref (heap s') l = deref (heap s) l ++ stamped w (ticks s) lines ∧
        (∀ l', l' ≠ l → heap s' !! l' = heap s !! l') ∧
        session s' = session s ∧
        log_box s' = log_box s ∧ ui s' = ui s ∧ os_trace s' = os_trace s ∧
        (ss_logs (session s) ≠ Some l → stored_logs s' = stored_logs s).
Proof.
  intros lines. eexists. split; [apply reader_thread_off_script|].
  fold lines.
  destruct (after_relays_frame w l lines s)
    as (Hlist & Hother & Hsession & Hbox & Hui & Htrace).
  split.
  { unfold lines, relayed_lines.
    destruct (default [] p_stdout) as [|[line|e] reads]; [cbn; lia| |cbn; lia].
    destruct (str_truthy line); cbn; lia. }
  do 6 (split; [assumption|]).
  intros Hne. by apply (stored_logs_elsewhere _ _ l).
Qed.

Lemma reader_thread_logs_witness :
  let reads := [inl "frame=1 "; inl "frame=2 "] in
  ss_logs (session state_started) ≠ Some (logs state_started) ∧
  ∃ s', reader_thread sample_strip (Some reads)
          (append_log_off_script world_ok (NoSessionContext "")
             (logs state_started)) state_started
        = Raise (NoSessionContext "") s' ∧
        deref (heap s') (logs state_started)
        = deref (heap state_started) (logs state_started)
          ++ stamped world_ok 2
               ["frame=1"; "Error membaca ffmpeg output: ";
                ">> Proses ffmpeg berakhir."] ∧
        stored_logs s' = stored_logs state_started.
Proof.
  intros reads.
  assert (Hne : ss_logs (session state_started) ≠ Some (logs state_started))
    by (vm_compute; discriminate).
  split; [exact Hne|].
  destruct (reader_thread_logs world_ok (NoSessionContext "") sample_strip
              (Some reads) (logs state_started) state_started)
    as (s' & Hrun & _ & Hlist & _ & _ & _ & _ & _ & Hstored).
  exists s'. split; [exact Hrun|]. split; [exact Hlist|exact (Hstored Hne)].
Defined.

(** ** Uploads *)

Local Opaque save_uploaded_file chunk_size progress_points.

Lemma open_w_refused dest f :
  open_refused dest f → ∃ e, open_w dest f = Raise e f.
Proof.
  intros Hcase. unfold open_w. cbv [mbind M_bind bind get].
  unfold open_refused, is_dir in Hcase.
  destruct (nodes f !! p_dir dest) as [[|dc]|]; [|by eexists..].
  destruct (nodes f !! path_str dest) as [[|c]|] eqn:Hn; [by eexists|..];
    (destruct Hcase as [?|[?|Hro]]; [congruence..|]); rewrite Hro; by eexists.
Qed.

Lemma save_uploaded_file_refused {C} u dest (cb : option (callback C)) f c :
  open_refused dest f →
  ∃ e, save_uploaded_file u dest cb (f, c) = Raise e (f, c).
Proof.
  intros Hcase. destruct (open_w_refused dest f Hcase) as [e He].
  exists e. Local Transparent save_uploaded_file.
  unfold save_uploaded_file. Local Opaque save_uploaded_file.
  cbv [mbind M_bind bind on_fst]. cbn [fst snd]. by rewrite He.
Qed.

Lemma upload_dest_free w s name :
  path_exists (upload_path name) (fs s) = false →
  upload_dest w name s = Ok (upload_path name) s.
Proof.
  intros Hex. unfold upload_dest. cbv [mbind M_bind bind get].
  fold (upload_path name). by rewrite Hex.
Qed.

Lemma upload_dest_taken w s name :
  path_exists (upload_path name) (fs s) = true →
  upload_dest w name s
  = Ok (stamped_path name (time_time w (ticks s))) (set_ticks (S (ticks s)) s).
Proof.
  intros Hex. unfold upload_dest, clock. cbv [mbind M_bind bind get].
  fold (upload_path name). by rewrite Hex.
Qed.

Lemma main_upload_saved w s up dest s1 :
  upload_dest w (up_name up) s = Ok dest s1 →
  is_dir (p_dir dest) (fs s1) = true →
  nodes (fs s1) !! path_str dest ≠ Some Dir →
  read_only (fs s1) = false →
  ∃ s', main_upload w (Some up) s = Ok (Some (path_str dest)) s' ∧
        nodes (fs s') = <[path_str dest := File (readable up)]> (nodes (fs s1)) ∧
        read_only (fs s') = false ∧
        upload_ui s'
        = {| progress_bar := Some (1, 1);
             status_text := Some (status_text_success
                                    ("Upload selesai: " +:+ path_str dest)) |} ∧
        session s' = session s1 ∧ heap s' = heap s1 ∧
        os_trace s' = os_trace s1 ∧ ui s' = ui s1 ∧ ticks s' = ticks s1.
Proof.
  intros Hdest Hd Hn Hro. unfold main_upload.
  rewrite (bind_ok _ _ _ _ _ Hdest).
  unfold set_progress, set_status, with_upload_state. run_monad.
  rewrite (save_uploaded_file_run up dest (Some progress_cb) (fs s1) _ Hd Hn Hro).
  eexists. split; [reflexivity|]. cbn. by rewrite Hro.
Qed.

Lemma main_upload_refused w s up dest s1 :
  upload_dest w (up_name up) s = Ok dest s1 →
  open_refused dest (fs s1) →
  ∃ e s', main_upload w (Some up) s = Ok None s' ∧
          fs s' = fs s1 ∧
          upload_ui s'
          = {| progress_bar := Some (0, 1);
               status_text := Some (status_text_error
                                      ("Gagal menyimpan file: " +:+ exn_str e)) |} ∧
          session s' = session s1 ∧ heap s' = heap s1 ∧
          os_trace s' = os_trace s1 ∧ ui s' = ui s1.
Proof.
  intros Hdest Hcase. unfold main_upload.
  rewrite (bind_ok _ _ _ _ _ Hdest).
  unfold set_progress, set_status, with_upload_state. run_monad.
  destruct (save_uploaded_file_refused up dest (Some progress_cb) (fs s1)
              {| progress_bar := Some (0, 1); status_text := None |} Hcase)
    as [e ->].
  exists e. eexists. split; [reflexivity|]. cbn. by destruct (fs s1).
Qed.

Lemma string_app_inj (a b c : string) : a +:+ b = a +:+ c → b = c.
Proof.
  induction a as [|x a IH]; [done|].
  change (String x (a +:+ b) = String x (a +:+ c) → b = c).
  intros [=]. auto.
Qed.

Lemma path_str_differs d name name' :
  name ≠ name' →
  path_str {| p_dir := d; p_name := name |}
  ≠ path_str {| p_dir := d; p_name := name' |}.
Proof.
  intros Hne Heq. unfold path_str in Heq. cbn [p_dir p_name] in Heq.
  by apply string_app_inj, string_app_inj in Heq.
Qed.

(** X6. An upload whose name is a plain name (one entry of a directory,
    without separator) that is free in [uploads], on a file system that
    takes writes: the upload block raises nothing and gives the path
    [uploads/<name>]; the file there holds the bytes of the upload and no
    other node of the file system has changed; the bar is full and the
    status says where the file is.  The clock is not read, and the session
    and the processes are as they were. *)
Theorem upload_saved_under_its_name w s up :
  plain_name (up_name up) = true →
  is_dir UPLOAD_DIR (fs s) = true →
  nodes (fs s) !! path_str (upload_path (up_name up)) = None →
  read_only (fs s) = false →
  ∃ s', main_upload w (Some up) s
        = Ok (Some (path_str (upload_path (up_name up)))) s' ∧
        file_content (upload_path (up_name up)) (fs s') = Some (readable up) ∧
        nodes (fs s')
        = <[path_str (upload_path (up_name up)) := File (readable up)]>
            (nodes (fs s)) ∧
        upload_ui s'
        = {| progress_bar := Some (1, 1);
             status_text :=
               Some (status_text_success
                       ("Upload selesai: "
                        +:+ path_str (upload_path (up_name up)))) |} ∧
        session s' = session s ∧ os_trace s' = os_trace s ∧
        ticks s' = ticks s.
Proof.
  intros _ Hd Hn Hro.
  assert (Hex : path_exists (upload_path (up_name up)) (fs s) = false).
  { unfold path_exists. rewrite Hn. apply andb_false_r. }
  destruct (main_upload_saved w s up _ s (upload_dest_free w s _ Hex) Hd
              ltac:(by rewrite Hn) Hro)
    as (s' & Hrun & Hnodes & _ & Hui & Hsession & _ & Htrace & _ & Hticks).
  exists s'. split; [exact Hrun|]. split.
  { unfold file_content. by rewrite Hnodes, lookup_insert_eq. }
  done.
Qed.

Lemma upload_saved_under_its_name_witness :
  let s := fresh_state fs_uploads in
  plain_name (up_name upload_five) = true ∧
  is_dir UPLOAD_DIR (fs s) = true ∧
  nodes (fs s) !! path_str (upload_path (up_name upload_five)) = None ∧
  read_only (fs s) = false ∧
  ∃ s', main_upload world_ok (Some upload_five) s
        = Ok (Some "uploads/video.mp4") s' ∧
        file_content dest_video (fs s') = Some (up_data upload_five) ∧
        ticks s' = 0.
Proof.
  intros s. do 4 (split; [reflexivity|]).
  destruct (upload_saved_under_its_name world_ok s upload_five
              eq_refl eq_refl eq_refl eq_refl)
    as (s' & Hrun & Hfile & _ & _ & _ & _ & Hticks).
  exists s'. split; [exact Hrun|]. split; [exact Hfile|exact Hticks].
Defined.

(** X7. An upload whose name is a plain name (one entry of a directory,
    without separator) that is taken in [uploads], on a file system that
    takes writes, where the name stamped with the time in seconds is not a
    directory: the upload block raises nothing and gives the stamped path;
    the bytes of the upload are there, and every other node, the file of
    the taken name among them, is as it was.  The stamped name differs from
    the taken one, and the clock has been read once. *)
Theorem upload_keeps_file_of_taken_name w s up :
  let name := up_name up in
  let dest := stamped_path name (time_time w (ticks s)) in
  plain_name name = true →
  path_exists (upload_path name) (fs s) = true →
  nodes (fs s) !! path_str dest ≠ Some Dir →
  read_only (fs s) = false →
  ∃ s', main_upload w (Some up) s = Ok (Some (path_str dest)) s' ∧
        file_content dest (fs s') = Some (readable up) ∧
        (∀ k, k ≠ path_str dest → nodes (fs s') !! k = nodes (fs s) !! k) ∧
        file_content (upload_path name) (fs s')
        = file_content (upload_path name) (fs s) ∧
        p_name dest ≠ name ∧
        ticks s' = S (ticks s).
Proof.
  intros name dest _ Hex Hn Hro.
  assert (Hd : is_dir UPLOAD_DIR (fs s) = true).
  { unfold path_exists in Hex. by apply andb_true_iff in Hex as [? _]. }
  destruct (main_upload_saved w s up _ _ (upload_dest_taken w s _ Hex) Hd Hn Hro)
    as (s' & Hrun & Hnodes & _ & _ & _ & _ & _ & _ & Hticks).
  assert (Hname : p_name dest ≠ name) by apply stamped_name_differs.
  assert (Hkeys : path_str dest ≠ path_str (upload_path name))
    by (by apply path_str_differs).
  exists s'. split; [exact Hrun|]. fold name dest in Hnodes.
  cbn [fs set_ticks] in Hnodes. split.
  { unfold file_content. by rewrite Hnodes, lookup_insert_eq. }
  split.
  { intros k Hk. rewrite Hnodes. by rewrite lookup_insert_ne. }
  split.
  { unfold file_content. rewrite Hnodes. by rewrite lookup_insert_ne. }
  done.
Qed.

Lemma upload_keeps_file_of_taken_name_witness :
  let s := fresh_state fs_collision in
  plain_name "video.mp4" = true ∧
  path_exists (upload_path "video.mp4") (fs s) = true ∧
  nodes (fs s) !! path_str dest_stamped ≠ Some Dir ∧
  read_only (fs s) = false ∧
  ∃ s', main_upload world_ok (Some upload_five) s
        = Ok (Some "uploads/video_1700000000.mp4") s' ∧
        file_content dest_video (fs s') = Some [x01; x02; x03]%byte ∧
        ticks s' = 1.
Proof.
  intros s. split; [reflexivity|]. split; [reflexivity|].
  split; [discriminate|]. split; [reflexivity|].
  destruct (upload_keeps_file_of_taken_name world_ok s upload_five)
    as (s' & Hrun & _ & _ & Hkept & _ & Hticks);
    [reflexivity|reflexivity|discriminate|reflexivity|].
  exists s'. split; [exact Hrun|]. split; [exact Hkept|exact Hticks].
Defined.



(** X9. When the destination, a plain name in a directory of the working
    directory, cannot be opened, because nothing or a regular file is in
    the place of its directory, because it is itself a directory, or
    because the file system is read-only, the receiver raises the error of
    [open]; nothing is written and the callback is never called.  The
    error is [FileNotFoundError] exactly when nothing is in the place of
    the directory; a regular file there gives another error. *)
Theorem save_refused_writes_nothing {C} (u : upload_source) (dest : path)
    (cb : option (callback C)) (f : filesystem) (c : C) :
  plain_path dest = true →
  open_refused dest f →
  ∃ e, save_uploaded_file u dest cb (f, c) = Raise e (f, c) ∧
       is_FileNotFoundError e = absent (p_dir dest) f.
Proof.
  intros _ Hcase. Local Transparent save_uploaded_file.
  unfold save_uploaded_file, open_w, absent. Local Opaque save_uploaded_file.
  cbv [mbind M_bind bind on_fst get]. cbn [fst snd].
  unfold open_refused, is_dir in Hcase.
  destruct (nodes f !! p_dir dest) as [[|dc]|]; [|by eexists..].
  destruct (nodes f !! path_str dest) as [[|fc]|] eqn:Hn; [by eexists|..];
    (destruct Hcase as [?|[?|Hro]]; [congruence..|]); rewrite Hro; by eexists.
Qed.

Lemma save_refused_writes_nothing_witness :
  plain_path dest_video = true ∧
  open_refused dest_video fs_blocked_uploads ∧
  ∃ e, save_uploaded_file upload_five dest_video (Some cb_record)
         (fs_blocked_uploads, [])
       = Raise e (fs_blocked_uploads, []) ∧
       is_FileNotFoundError e = false.
Proof.
  split; [reflexivity|]. split; [by left|].
  apply (save_refused_writes_nothing upload_five dest_video (Some cb_record)
           fs_blocked_uploads []); [reflexivity|by left].
Defined.

(** ** The reports of progress *)





Local Transparent progress_points.



Local Opaque progress_points.



(** ** Loading the module *)

Lemma bind_raise {S A B} (m : M S A) (k : A → M S B) (s s' : S) (e : exn) :
  m s = Raise e s' → (m ≫= k) s = Raise e s'.
Proof. intros H. by rewrite bind_run, H. Qed.

Lemma write_text_frame p text f :
  read_only (final (write_text p text f)) = read_only f ∧
  ∀ k, k ≠ path_str p →
       nodes (final (write_text p text f)) !! k = nodes f !! k.
Proof.
  destruct (is_dir (p_dir p) f) eqn:Hd.
  - destruct (nodes f !! path_str p) as [[|c]|] eqn:Hn;
      [|destruct (read_only f) eqn:Hro..].
    + destruct (write_text_refused p text f Hd (or_introl Hn)) as [e ->]. done.
    + destruct (write_text_refused p text f Hd (or_intror Hro)) as [e ->]. done.
    + rewrite write_text_run by (done || by rewrite Hn).
      split; [done|]. intros k Hk. cbn. by rewrite lookup_insert_ne.
    + destruct (write_text_refused p text f Hd (or_intror Hro)) as [e ->]. done.
    + rewrite write_text_run by (done || by rewrite Hn).
      split; [done|]. intros k Hk. cbn. by rewrite lookup_insert_ne.
  - destruct (open_w_refused p f (or_introl Hd)) as [e He].
    unfold write_text. by rewrite (bind_raise _ _ _ _ _ He).
Qed.

Lemma mkdir_exist_ok_frame d f :
  read_only (final (mkdir_exist_ok d f)) = read_only f ∧
  ∀ k, k ≠ d → nodes (final (mkdir_exist_ok d f)) !! k = nodes f !! k.
Proof.
  rewrite mkdir_exist_ok_run.
  destruct (nodes f !! d) as [[|c]|]; [done..|].
  destruct (read_only f) eqn:Hro; cbn [final]; [by rewrite Hro|].
  split; [exact Hro|].
  intros k Hk. cbn. by rewrite lookup_insert_ne.
Qed.

(** Start-up of the settings file in every case. *)
Lemma startup_config_run f out :
  ∃ f' printed,
    startup_config (f, out) = Ok tt (f', out ++ printed) ∧
    length printed ≤ 1 ∧
    read_only f' = read_only f ∧
    ∀ k, not_settings k → nodes f' !! k = nodes f !! k.
Proof.
  destruct (path_exists CONFIG_PATH f) eqn:Hex.
  { exists f, []. rewrite app_nil_r.
    split; [by apply startup_config_present|]. split; [cbn; lia|done]. }
  rewrite (startup_config_absent f out Hex).
  unfold try_except. cbv [mbind M_bind bind on_fst]. cbn [fst snd].
  destruct (mkdir_exist_ok_frame CONFIG_DIR f) as [Hro1 Hk1].
  destruct (mkdir_exist_ok CONFIG_DIR f) as [[] f1|e f1];
    cbn [final fst snd] in *.
  - destruct (write_text_frame CONFIG_PATH config_text f1) as [Hro2 Hk2].
    destruct (write_text CONFIG_PATH config_text f1) as [[] f2|e f2];
      cbn [final] in *; rewrite print_run; eexists _, [_];
      (split; [reflexivity|]); (split; [cbn; lia|]);
      (split; [congruence|]); intros k [Hkd Hkf];
      by rewrite Hk2, Hk1.
  - rewrite print_run. eexists _, [_]. split; [reflexivity|].
    split; [cbn; lia|]. split; [done|]. intros k [Hkd Hkf]. by apply Hk1.
Qed.

(** X11. Start-up of the settings file raises nothing in any working
    directory, prints at most one line, leaves the file system read-only or
    not as it was, and touches no path other than [.streamlit] and
    [.streamlit/config.toml]. *)
Theorem startup_config_touches_only_settings (f : filesystem)
    (out : list string) :
  ∃ f' printed,
    startup_config (f, out) = Ok tt (f', out ++ printed) ∧
    length printed ≤ 1 ∧
    read_only f' = read_only f ∧
    (∀ k, k ≠ ".streamlit" → k ≠ ".streamlit/config.toml" →
          nodes f' !! k = nodes f !! k).
Proof.
  destruct (startup_config_run f out)
    as (f' & printed & Hrun & Hlen & Hro & Hframe).
  exists f', printed. split; [exact Hrun|]. split; [exact Hlen|].
  split; [exact Hro|]. intros k Hd Hf. by apply Hframe.
Qed.

Lemma startup_config_touches_only_settings_witness :
  ∃ f' printed,
    startup_config (fs_uploads, []) = Ok tt (f', [] ++ printed) ∧
    nodes f' !! "uploads" = Some Dir.
Proof.
  destruct (startup_config_touches_only_settings fs_uploads [])
    as (f' & printed & Hrun & _ & _ & Hframe).
  exists f', printed. split; [exact Hrun|].
  rewrite (Hframe "uploads"); [reflexivity|discriminate|discriminate].
Defined.

(** X12. Loading the module makes [uploads] after the settings file, and
    nothing catches a failure there.  So loading returns normally exactly
    when [uploads] is a directory or can be made, whether or not the
    settings file could be written, and [uploads] is a directory afterward;
    otherwise loading raises and [uploads] is not a directory. *)
Theorem startup_needs_uploads_dir (f : filesystem) (out : list string) :
  if uploads_available f then
    ∃ f' out', startup (f, out) = Ok tt (f', out') ∧
               is_dir UPLOAD_DIR f' = true ∧
               read_only f' = read_only f
  else
    ∃ e f' out', startup (f, out) = Raise e (f', out') ∧
                 is_dir UPLOAD_DIR f' = false.
Proof.
  destruct (startup_config_run f out)
    as (f1 & printed & Hrun & _ & Hro & Hframe).
  assert (Hup : nodes f1 !! UPLOAD_DIR = nodes f !! UPLOAD_DIR)
    by (by apply Hframe).
  unfold startup, startup_uploads. rewrite (bind_ok _ _ _ _ _ Hrun).
  unfold on_fst. cbn [fst snd]. rewrite mkdir_exist_ok_run, Hup, Hro.
  unfold uploads_available, is_dir.
  destruct (nodes f !! UPLOAD_DIR) as [[|c]|] eqn:Hn.
  - eexists _, _. split; [reflexivity|]. by rewrite Hup.
  - eexists _, _, _. split; [reflexivity|]. by rewrite Hup.
  - destruct (read_only f); cbn [negb].
    + eexists _, _, _. split; [reflexivity|]. by rewrite Hup.
    + eexists _, _. split; [reflexivity|]. cbn.
      by rewrite lookup_insert_eq.
Qed.

(** ** What the log holds *)

Lemma string_app_assoc (a b c : string) : (a +:+ b) +:+ c = a +:+ b +:+ c.
Proof.
  induction a as [|x a IH]; [done|].
  change (String x ((a +:+ b) +:+ c) = String x (a +:+ b +:+ c)).
  by rewrite IH.
Qed.

Lemma concat_snoc (sep : string) (l : list string) (x : string) :
  l ≠ [] →
  String.concat sep (l ++ [x]) = String.concat sep l +:+ sep +:+ x.
Proof.
  induction l as [|a l IH]; [done|]. intros _.
  destruct l as [|b l]; [done|].
  change (a +:+ sep +:+ String.concat sep ((b :: l) ++ [x])
          = (a +:+ sep +:+ String.concat sep (b :: l)) +:+ sep +:+ x).
  rewrite IH by done. by rewrite !string_app_assoc.
Qed.

Lemma command_echo_ends_with_key video_path stream_key is_shorts :
  command_echo video_path stream_key is_shorts
  = echo_before_key video_path is_shorts +:+ stream_key.
Proof.
  unfold command_echo, echo_before_key.
  replace (ffmpeg_cmd video_path stream_key is_shorts)
    with (take (if is_shorts then 28 else 26)
            (ffmpeg_cmd video_path "" is_shorts)
          ++ [output_url stream_key]) by (by destruct is_shorts).
  rewrite concat_snoc by (by destruct is_shorts).
  unfold output_url. by rewrite !string_app_assoc.
Qed.

(** X13. [start_ffmpeg] writes the destination key into the log in clear,
    whatever the spawn does afterward: the first line it adds to the list
    of its writer is the command line, and that line ends with the key.
    The stored buffer is the end of that list. *)
Theorem start_logs_the_key w s video_path stream_key is_shorts :
  let s' := final (start_ffmpeg w video_path stream_key is_shorts
                     (append_log w) s) in
  ∃ rest,
    deref (heap s') (logs s')
    = deref (heap s) (logs s)
      ++ log_line (strftime w (ticks s))
           (echo_before_key video_path is_shorts +:+ stream_key) :: rest ∧
    length rest ≤ 1 ∧
    stored_logs s' = slice_last 200 (deref (heap s') (logs s')).
Proof.
  intros s'. rewrite <- command_echo_ends_with_key. subst s'.
  unfold start_ffmpeg, os_call.
  fold (command_echo video_path stream_key is_shorts).
  remember (ffmpeg_cmd video_path stream_key is_shorts) as cmd.
  remember (command_echo video_path stream_key is_shorts) as echo.
  cbv [mbind M_bind bind]. rewrite append_log_run.
  run_monad. destruct (Popen w cmd) as [h|e]; cbn.
  - exists []. read_fields. split; [done|]. split; [cbn; lia|done].
  - destruct (is_FileNotFoundError e); cbn.
    + rewrite append_log_run. cbn [final]. eexists [_]. read_fields.
      split; [by rewrite <- !app_assoc|]. split; [cbn; lia|].
      by rewrite <- !app_assoc.
    + exists []. read_fields. split; [done|]. split; [cbn; lia|done].
Qed.

Lemma stamped_length w t msgs : length (stamped w t msgs) = length msgs.
Proof. revert t. induction msgs; intros; cbn; auto. Qed.

Lemma after_all_stored_ne w msgs s :
  msgs ≠ [] →
  stored_logs (after_all w msgs s)
  = slice_last 200 (deref (heap s) (logs s) ++ stamped w (ticks s) msgs).
Proof.
  destruct msgs as [|msg msgs _] using rev_ind; [done|]. intros _.
  apply after_all_stored.
Qed.

(** X14. The list that a closure of [append_log] holds is never cut: after
    any number of appends through it, it holds all the lines it had and all
    the appended lines in order, however many; only the copy stored in the
    session is held to 200 lines. *)
Theorem closure_list_keeps_every_line w s msgs :
  let r := append_all w msgs s in
  returned r = Some tt ∧
  logs (final r) = logs s ∧
  deref (heap (final r)) (logs (final r))
  = deref (heap s) (logs s) ++ stamped w (ticks s) msgs ∧
  length (deref (heap (final r)) (logs (final r)))
  = length (deref (heap s) (logs s)) + length msgs ∧
  match msgs with
  | [] => stored_logs (final r) = stored_logs s
  | _ => length (stored_logs (final r))
         = (length (deref (heap s) (logs s)) + length msgs) `min` 200
  end.
Proof.
  intros r. subst r. rewrite append_all_run. cbn [final returned].
  destruct (after_all_frame w msgs s) as (Hlogs & _).
  split; [done|]. split; [exact Hlogs|]. rewrite after_all_local.
  split; [done|]. split; [by rewrite length_app, stamped_length|].
  destruct msgs as [|msg msgs]; [done|].
  rewrite after_all_stored_ne, slice_last_length by done.
  by rewrite length_app, stamped_length.
Qed.

(** ** A run of the script *)

Lemma main_upload_frame w up s :
  ∃ r s', main_upload w up s = Ok r s' ∧
          session s' = session s ∧ heap s' = heap s ∧
          os_trace s' = os_trace s ∧ ui s' = ui s.
Proof.
  destruct up as [up|]; [|by exists None, s].
  assert (Hdest : ∃ dest s1, upload_dest w (up_name up) s = Ok dest s1 ∧
            session s1 = session s ∧ heap s1 = heap s ∧
            os_trace s1 = os_trace s ∧ ui s1 = ui s).
  { destruct (path_exists (upload_path (up_name up)) (fs s)) eqn:Hex.
    - eexists _, _. split; [by apply upload_dest_taken|done].
    - eexists _, _. split; [by apply upload_dest_free|done]. }
  destruct Hdest as (dest & s1 & Hdest & <- & <- & <- & <-).
  destruct (is_dir (p_dir dest) (fs s1)) eqn:Hd;
    [destruct (nodes (fs s1) !! path_str dest) as [[|c]|] eqn:Hn;
       [|destruct (read_only (fs s1)) eqn:Hro..]|].
  - destruct (main_upload_refused w s up dest s1 Hdest)
      as (e & s' & Hrun & _ & _ & ? & ? & ? & ?); [by right; left|eauto 10].
  - destruct (main_upload_refused w s up dest s1 Hdest)
      as (e & s' & Hrun & _ & _ & ? & ? & ? & ?); [by right; right|eauto 10].
  - destruct (main_upload_saved w s up dest s1 Hdest Hd)
      as (s' & Hrun & _ & _ & _ & ? & ? & ? & ? & _);
      [by rewrite Hn|done|eauto 10].
  - destruct (main_upload_refused w s up dest s1 Hdest)
      as (e & s' & Hrun & _ & _ & ? & ? & ? & ?); [by right; right|eauto 10].
  - destruct (main_upload_saved w s up dest s1 Hdest Hd)
      as (s' & Hrun & _ & _ & _ & ? & ? & ? & ? & _);
      [by rewrite Hn|done|eauto 10].
  - destruct (main_upload_refused w s up dest s1 Hdest)
      as (e & s' & Hrun & _ & _ & ? & ? & ? & ?); [by left|eauto 10].
Qed.

Lemma bind_logs_frame s :
  ∃ s1, bind_logs s = Ok tt s1 ∧
        session s1 = session s ∧ os_trace s1 = os_trace s ∧
        stored_logs s1 = stored_logs s.
Proof.
  destruct (bind_logs_run s) as (s1 & Hrun & _ & _ & Hsession & Hstored).
  exists s1. split; [exact Hrun|]. split; [exact Hsession|].
  split; [|exact Hstored]. revert Hrun. unfold bind_logs. run_monad.
  destruct (ss_logs (session s)); by intros [= <-].
Qed.

Lemma show_logs_run s : show_logs s = Ok tt (set_log_box (Some (log_panel s)) s).
Proof.
  unfold show_logs, log_panel. run_monad. by destruct (ss_logs (session s)).
Qed.

Local Transparent stored_logs.

Lemma stored_logs_same s s' :
  session s' = session s → heap s' = heap s → stored_logs s' = stored_logs s.
Proof. intros Hs Hh. unfold stored_logs. by rewrite Hs, Hh. Qed.

Local Opaque stored_logs.

(** X16. A run of the script in which the start button is not pressed
    raises nothing and spawns nothing: the only calls on processes are the
    signal, the wait and the kill of the stop button, when it is pressed
    and the stored child is running, and then the stored handle is [None].
    With neither button pressed, the session, stored handle and log buffer
    included, is as it was, whatever is uploaded. *)
Theorem run_without_start w i s :
  start_btn i = false →
  ∃ s', main w i s = Ok tt s' ∧
        os_trace s' = os_trace s ++ stop_calls_of w (stop_btn i) s ∧
        stored_proc s' = proc_after_stop w (stop_btn i) s ∧
        if stop_btn i then True
        else session s' = session s ∧ stored_logs s' = stored_logs s.
Proof.
  intros Hstart. unfold main, ffmpeg_available, stop_calls_of, proc_after_stop.
  cbv [mbind M_bind bind mret M_ret ret st_show modify]. rewrite Hstart.
  assert (Hgoal : ∀ s1,
    session s1 = session s → heap s1 = heap s → os_trace s1 = os_trace s →
    ∃ s', match main_upload w (uploaded_file i) s1 with
          | Ok saved s2 =>
              match bind_logs s2 with
              | Ok _ s3 =>
                  match (if stop_btn i then main_stop w
                         else λ s0 : state, Ok tt s0) s3 with
                  | Ok _ s4 =>
                      match show_logs s4 with
                      | Ok _ s5 =>
                          match choose_video (selected_video i) saved with
                          | Some v =>
                              if str_truthy v
                              then λ s0 : state,
                                     Ok tt (set_ui (ui s0 ++ [st_info ("Video yang akan di-stream: " +:+ v)]) s0)
                              else λ s0 : state, Ok tt s0
                          | None => λ s0 : state, Ok tt s0
                          end s5
                      | Raise e s5 => Raise e s5
                      end
                  | Raise e s4 => Raise e s4
                  end
              | Raise e s3 => Raise e s3
              end
          | Raise e s2 => Raise e s2
          end = Ok tt s' ∧
          os_trace s'
          = os_trace s ++ (if stop_btn i
                           then match running_proc w (stored_proc s) with
                                | Some h => stop_calls w h
                                | None => []
                                end
                           else []) ∧
          stored_proc s'
          = (if stop_btn i
             then match running_proc w (stored_proc s) with
                  | Some _ => None
                  | None => stored_proc s
                  end
             else stored_proc s) ∧
          (if stop_btn i then True
           else session s' = session s ∧ stored_logs s' = stored_logs s)).
  { intros s1 Hsess1 Hheap1 Htrace1.
    destruct (main_upload_frame w (uploaded_file i) s1)
      as (saved & s2 & -> & Hsess2 & Hheap2 & Htrace2 & _).
    destruct (bind_logs_frame s2) as (s3 & -> & Hsess3 & Htrace3 & Hstored3).
    assert (Hproc3 : stored_proc s3 = stored_proc s)
      by (unfold stored_proc; by rewrite Hsess3, Hsess2, Hsess1).
    assert (Hlogs3 : stored_logs s3 = stored_logs s).
    { rewrite Hstored3. apply stored_logs_same; congruence. }
    assert (Htail : ∀ s0, ∃ s',
              match choose_video (selected_video i) saved with
              | Some v =>
                  if str_truthy v
                  then λ s0 : state,
                         Ok tt (set_ui (ui s0 ++ [st_info ("Video yang akan di-stream: " +:+ v)]) s0)
                  else λ s0 : state, Ok tt s0
              | None => λ s0 : state, Ok tt s0
              end s0 = Ok tt s' ∧
              session s' = session s0 ∧ heap s' = heap s0 ∧
              os_trace s' = os_trace s0).
    { intros s0. destruct (choose_video _ _) as [v|];
        [destruct (str_truthy v)|]; by eexists. }
    destruct (stop_btn i).
    - destruct (main_stop_run w s3) as (s4 & -> & Hproc4 & Htrace4 & _).
      rewrite show_logs_run.
      destruct (Htail (set_log_box (Some (log_panel s4)) s4))
        as (s' & -> & Hsess' & _ & Htrace').
      exists s'. split; [done|]. rewrite Htrace'. cbn [os_trace set_log_box].
      assert (Hproc' : stored_proc s' = stored_proc s4)
        by (unfold stored_proc; by rewrite Hsess').
      rewrite Htrace4, Htrace3, Htrace2, Htrace1, Hproc', Hproc4, Hproc3.
      done.
    - rewrite show_logs_run.
      destruct (Htail (set_log_box (Some (log_panel s3)) s3))
        as (s' & -> & Hsess' & Hheap' & Htrace').
      exists s'. split; [done|]. rewrite Htrace'. cbn [os_trace set_log_box].
      rewrite Htrace3, Htrace2, Htrace1, app_nil_r.
      split; [done|]. split.
      { rewrite <- Hproc3. unfold stored_proc. by rewrite Hsess'. }
      split.
      { rewrite Hsess'. cbn [session set_log_box]. congruence. }
      rewrite <- Hlogs3. by apply stored_logs_same. }
  destruct (ffmpeg_version_ok w); cbn [negb]; by apply Hgoal.
Qed.

Lemma run_without_start_witness :
  start_btn press_stop = false ∧
  ∃ s', main world_ok press_stop state_streaming = Ok tt s' ∧
        os_trace s' = [EvTerminate 7; EvWait 7 5; EvKill 7] ∧
        stored_proc s' = None.
Proof.
  split; [reflexivity|].
  destruct (run_without_start world_ok press_stop state_streaming eq_refl)
    as (s' & Hrun & Htrace & Hproc & _).
  exists s'. split; [exact Hrun|]. split; [exact Htrace|exact Hproc].
Defined.

(** X17. At the end of every run of the script that returns, whatever was
    pressed, the log panel shows the buffer stored in the session, its
    lines joined by line feeds, or the notice that the log is empty when
    the session has no buffer yet. *)
Theorem run_shows_stored_buffer w i s s' :
  main w i s = Ok tt s' →
  log_box s' = Some (log_panel s') ∧
  log_panel s'
  = match ss_logs (session s') with
    | Some _ => String.concat nl (stored_logs s')
    | None => "Log kosong. Klik 'Mulai Streaming' untuk melihat output ffmpeg."
    end.
Proof.
  intros H. split.
  - unfold main in H.
    apply bind_Ok_inv in H as (available & s1 & _ & H).
    apply bind_Ok_inv in H as ([] & s2 & _ & H).
    apply bind_Ok_inv in H as (saved & s3 & _ & H). cbv zeta in H.
    apply bind_Ok_inv in H as ([] & s4 & _ & H).
    apply bind_Ok_inv in H as ([] & s5 & _ & H).
    apply bind_Ok_inv in H as ([] & s6 & _ & H).
    apply bind_Ok_inv in H as ([] & s7 & Hshow & H).
    rewrite show_logs_run in Hshow. injection Hshow as <-.
    destruct (choose_video _ _) as [v|]; [destruct (str_truthy v)|];
      by injection H as <-.
  - Local Transparent stored_logs.
    unfold log_panel, stored_logs. Local Opaque stored_logs.
    by destruct (ss_logs (session s')).
Qed.

Lemma run_shows_stored_buffer_witness :
  let s' := final (main world_ok press_start (fresh_state fs_uploads)) in
  main world_ok press_start (fresh_state fs_uploads) = Ok tt s' ∧
  log_box s' = Some (log_panel s') ∧
  length (stored_logs s') = 2.
Proof.
  intros s'. split; [vm_compute; reflexivity|].
  split; [|vm_compute; reflexivity].
  apply (run_shows_stored_buffer world_ok press_start (fresh_state fs_uploads) s').
  vm_compute; reflexivity.
Defined.
